(** * A Rocq model of [fubon_account.FubonAccount]

    The account class sits between the Fubon SDK and the finlab account
    interface.  The records that come back from the SDK are duck-typed, so
    the model starts with a small universe of Python values and the few
    built-ins the class relies on ([getattr], [dict.get], [float], [int],
    [len], truthiness).  The SDK itself is an oracle: every request is
    appended to a trace, stamped with the wall clock, and answered by a
    function of the trace so far.

    A Python float is modelled by the rational it denotes; the product
    that turns lots into shares is rounded to binary64 as the interpreter
    rounds it.  [float] on a string is a parameter of the development,
    since its grammar lives in the interpreter and not in this
    repository. *)

From Stdlib Require Import ZArith QArith Qround Lia Lqa String Ascii List Bool.
From stdpp Require Import gmap strings pretty.

Import ListNotations.
Set Warnings "-register-all".
Local Open Scope Z_scope.
Local Open Scope string_scope.
Local Open Scope list_scope.

(** ** Constants of [fubon_neo.constant] and [finlab.online.enums] *)

Inductive MarketType := Common | Fixing | Odd | IntradayOdd | Emg | EmgOdd.
Inductive OrderType := Stock | Margin | Short | DayTrade | SBL.
Inductive BSAction := Buy | Sell.
Inductive PriceType := Limit | Market | LimitUp | LimitDown | Reference.
Inductive TimeInForce := ROD | FOK | IOC.

Inductive Action := BUY | SELL.
Inductive OrderStatus := NEW | PARTIALLY_FILLED | FILLED | CANCEL.
Inductive OrderCondition :=
  CASH | MARGIN_TRADING | SHORT_SELLING | DAY_TRADING_LONG | DAY_TRADING_SHORT.

Definition OrderStatus_eqb (a b : OrderStatus) : bool :=
  match a, b with
  | NEW, NEW | PARTIALLY_FILLED, PARTIALLY_FILLED
  | FILLED, FILLED | CANCEL, CANCEL => true
  | _, _ => false
  end.

Definition OrderCondition_eqb (a b : OrderCondition) : bool :=
  match a, b with
  | CASH, CASH | MARGIN_TRADING, MARGIN_TRADING
  | SHORT_SELLING, SHORT_SELLING | DAY_TRADING_LONG, DAY_TRADING_LONG
  | DAY_TRADING_SHORT, DAY_TRADING_SHORT => true
  | _, _ => false
  end.

(** ** Python values *)

Module Py.

Inductive val :=
| None_
| Bool (b : bool)
| Int (z : Z)
| Float (q : Q)
| Str (s : string)
| EMarket (m : MarketType)
| EOrderType (t : OrderType)
| EBSAction (a : BSAction)
| List (l : list val)
| Dict (d : list (string * val))
| Obj (attrs : list (string * val)).

(** First binding of [k] in a dict or in the attribute table of an object. *)
Fixpoint assoc (k : string) (d : list (string * val)) : option val :=
  match d with
  | [] => None
  | (k', v) :: d' => if String.eqb k k' then Some v else assoc k d'
  end.

(** [bool(v)] *)
Definition truthy (v : val) : bool :=
  match v with
  | None_ => false
  | Bool b => b
  | Int z => negb (Z.eqb z 0)
  | Float q => negb (Qeq_bool q 0)
  | Str s => negb (String.eqb s "")
  | List l => match l with [] => false | _ => true end
  | Dict d => match d with [] => false | _ => true end
  | EMarket _ | EOrderType _ | EBSAction _ | Obj _ => true
  end.

(** [a or b] *)
Definition or_ (a b : val) : val := if truthy a then a else b.

(** [getattr(v, name, default)]: only objects carry the attributes the
    class asks for; maps, lists, strings and numbers fall to the default. *)
Definition getattr (v : val) (name : string) (default : val) : val :=
  match v with
  | Obj attrs => match assoc name attrs with Some x => x | None => default end
  | _ => default
  end.

(** [hasattr(v, name)] *)
Definition hasattr (v : val) (name : string) : bool :=
  match v with
  | Obj attrs => match assoc name attrs with Some _ => true | None => false end
  | _ => false
  end.

(** [d.get(key, default)] on a dict *)
Definition get (d : list (string * val)) (key : string) (default : val) : val :=
  match assoc key d with Some x => x | None => default end.

(** [key in d] on a dict *)
Definition contains (d : list (string * val)) (key : string) : bool :=
  match assoc key d with Some _ => true | None => false end.

(** The characters of a string, each as a one-character string. *)
Fixpoint chars (s : string) : list val :=
  match s with
  | EmptyString => []
  | String c s' => Str (String c EmptyString) :: chars s'
  end.

(** What [for x in v] walks through; [None] is the [TypeError] of a value
    that is not iterable. *)
Definition iter (v : val) : option (list val) :=
  match v with
  | List l => Some l
  | Dict d => Some (map (fun kv => Str (fst kv)) d)
  | Str s => Some (chars s)
  | _ => None
  end.

(** [len(v)]; [None] is the [TypeError]. *)
Definition len (v : val) : option nat :=
  match v with
  | List l => Some (length l)
  | Dict d => Some (length d)
  | Str s => Some (String.length s)
  | _ => None
  end.

(** [v[0]]; [None] is the [IndexError], [KeyError] or [TypeError].  The
    keys of a modelled dict are strings, so the integer key is never one
    of them. *)
Definition item0 (v : val) : option val :=
  match v with
  | List (x :: _) => Some x
  | Str (String c _) => Some (Str (String c EmptyString))
  | _ => None
  end.

(** [int(x)] on a float: truncation toward zero. *)
Definition int (q : Q) : Z := Z.quot (Qnum q) (Zpos (Qden q)).

(** The binary64 number nearest to the positive rational [n/d], ties to
    even: 53 bits of mantissa, subnormal below [2^-1022].  The exponent is
    not bounded above, so an overflow to infinity is not modelled. *)
Definition nearest64_pos (n d : positive) : Q :=
  let e0 := Z.log2 (Zpos n) - Z.log2 (Zpos d) in
  let above :=
    if (0 <=? e0)%Z then (Zpos d * 2 ^ e0 <=? Zpos n)%Z
    else (Zpos d <=? Zpos n * 2 ^ (- e0))%Z in
  let e := if above then e0 else e0 - 1 in
  let shift := Z.max (e - 52) (-1074) in
  let num := if (0 <=? shift)%Z then Zpos n else Zpos n * 2 ^ (- shift) in
  let den := if (0 <=? shift)%Z then Zpos d * 2 ^ shift else Zpos d in
  let q := num / den in
  let r := num mod den in
  let m :=
    if (2 * r <? den)%Z then q
    else if (den <? 2 * r)%Z then q + 1
    else if Z.even q then q else q + 1 in
  if (0 <=? shift)%Z then inject_Z (m * 2 ^ shift)
  else Qmake m (Z.to_pos (2 ^ (- shift))).

(** The float a rational stands for: a rational that is not a binary64
    number is read as the nearest one, as the interpreter reads a
    literal. *)
Definition round64 (x : Q) : Q :=
  match Qnum x with
  | 0%Z => 0%Q
  | Zpos n => nearest64_pos n (Qden x)
  | Zneg n => (- nearest64_pos n (Qden x))%Q
  end.

(** [x * y] on floats: the exact product of the two floats, rounded. *)
Definition mul64 (x y : Q) : Q := round64 (round64 x * round64 y).

(** [v == n] for an integer literal [n]. *)
Definition eq_int (v : val) (n : Z) : bool :=
  match v with
  | Int z => Z.eqb z n
  | Float q => Qeq_bool q (inject_Z n)
  | Bool b => Z.eqb (if b then 1 else 0) n
  | _ => false
  end.

(** [x < y] and [x <= y] on floats *)
Definition ltb (x y : Q) : bool := negb (Qle_bool y x).
Definition leb (x y : Q) : bool := Qle_bool x y.

(** [float(v)], given [float] on strings; [None] stands for the
    [TypeError] or [ValueError]. *)
Definition float (float_of_str : string -> option Q) (v : val) : option Q :=
  match v with
  | Bool b => Some (if b then 1%Q else 0%Q)
  | Int z => Some (inject_Z z)
  | Float q => Some q
  | Str s => float_of_str s
  | _ => None
  end.

(** [s.upper()], on the ASCII letters. *)
Definition upper_ascii (c : ascii) : ascii :=
  let n := nat_of_ascii c in
  if ((97 <=? n)%nat && (n <=? 122)%nat)%bool then ascii_of_nat (n - 32) else c.

Fixpoint upper (s : string) : string :=
  match s with
  | EmptyString => EmptyString
  | String c s' => String (upper_ascii c) (upper s')
  end.

End Py.

Abbreviation pyval := Py.val.

(** ** Records of the two libraries *)

(** [fubon_neo.sdk.Order], the request handed to [place_order]. *)
Module FBOrder.
Record t := mk {
  buy_sell : BSAction;
  symbol : pyval;
  price : option Q;
  quantity : Z;
  market_type : MarketType;
  price_type : PriceType;
  time_in_force : TimeInForce;
  order_type : OrderType
}.
End FBOrder.

(** [finlab.online.base_account.Order].  Two fields that nothing below
    reads, [order_condition] and [time], are left out; computing them
    cannot make [_create_finlab_order] raise, since both sit in their own
    [try] blocks. *)
Module Order.
Record t := mk {
  order_id : pyval;
  stock_id : pyval;
  action : Action;
  price : Q;
  quantity : Q;
  filled_quantity : Q;
  status : OrderStatus;
  org_order : pyval
}.
End Order.

(** [finlab.online.base_account.Stock] *)
Module FinlabStock.
Record t := mk {
  stock_id : pyval;
  open : Q;
  high : Q;
  low : Q;
  close : Q;
  bid_price : Q;
  ask_price : Q;
  bid_volume : Q;
  ask_volume : Q
}.
End FinlabStock.

(** One element of the list handed to [Position.from_list]. *)
Module Entry.
Record t := mk {
  stock_id : pyval;
  quantity : Q;
  order_condition : OrderCondition
}.
End Entry.

(** ** Wall clock

    [datetime.datetime.now()] is a rational number of seconds counted from
    2021-01-01 00:00:00 local time, the value the constructor gives to
    [timestamp_for_get_position]. *)

Module datetime.

Record time := mk_time {
  hour : Z;
  minute : Z;
  second : Z;
  microsecond : Z
}.

(** [datetime.time(h, m)] *)
Definition time_hm (h m : Z) : time := mk_time h m 0 0.

(** [a < b] on [datetime.time]: lexicographic on the four fields. *)
Definition time_ltb (a b : time) : bool :=
  (hour a <? hour b)%Z
  || (hour a =? hour b)%Z
     && ((minute a <? minute b)%Z
         || (minute a =? minute b)%Z
            && ((second a <? second b)%Z
                || (second a =? second b)%Z
                   && (microsecond a <? microsecond b)%Z)).

(** Time of day of an instant. *)
Definition time_of (now : Q) : time :=
  let s := Qfloor now in
  mk_time ((s / 3600) mod 24) ((s / 60) mod 60) (s mod 60)
          (Qfloor ((now - inject_Z s) * 1000000)).

End datetime.

(** ** Order status: the status part of [_create_finlab_order] *)

(** The code-derived status. *)
Definition status_of_code (status_code : pyval) : OrderStatus :=
  if Py.eq_int status_code 10 then NEW
  else if Py.eq_int status_code 30 then CANCEL
  else if Py.eq_int status_code 50 then FILLED
  else if Py.eq_int status_code 90 then CANCEL
  else NEW.

(** The status after the partial-fill check. *)
Definition order_status (status_code : pyval) (filled_qty after_qty : Q) : OrderStatus :=
  let status := status_of_code status_code in
  if Py.ltb 0 filled_qty && Py.ltb filled_qty after_qty
     && negb (OrderStatus_eqb status CANCEL)
  then PARTIALLY_FILLED
  else status.

(** [market_type in [MarketType.IntradayOdd, MarketType.Odd, MarketType.EmgOdd]] *)
Definition is_odd_market (market_type : pyval) : bool :=
  match market_type with
  | Py.EMarket IntradayOdd | Py.EMarket Odd | Py.EMarket EmgOdd => true
  | _ => false
  end.

(** [_map_order_action]; [None] is the [ValueError]. *)
Definition _map_order_action (order : pyval) : option Action :=
  match Py.getattr order "buy_sell" Py.None_ with
  | Py.EBSAction Buy => Some BUY
  | Py.EBSAction Sell => Some SELL
  | Py.Str s =>
      let u := Py.upper s in
      if String.eqb u "B" || String.eqb u "BUY" then Some BUY
      else if String.eqb u "S" || String.eqb u "SELL" then Some SELL
      else None
  | _ => None
  end.

(** ** Lot and session classification, price type: the pure part of
    [create_order] *)

(** The market type chosen for a new order at instant [now]. *)
Definition market_type_at (odd_lot : bool) (now : Q) : MarketType :=
  let t := datetime.time_of now in
  let hm := datetime.time_hm (datetime.hour t) (datetime.minute t) in
  let market_type := if odd_lot then IntradayOdd else Common in
  let market_type :=
    if datetime.time_ltb (datetime.time_hm 13 40) hm
       && datetime.time_ltb hm (datetime.time_hm 14 30) && odd_lot
    then Odd else market_type in
  if datetime.time_ltb (datetime.time_hm 14 0) hm
     && datetime.time_ltb hm (datetime.time_hm 14 30) && negb odd_lot
  then Fixing else market_type.

(** The two [if] blocks on [market_order] and [best_price_limit], in the
    order of the source; the result is the pair (price, price_type). *)
Definition resolve_price (action : Action) (price : option Q)
    (best_price_limit market_order : bool) : option Q * PriceType :=
  let price_type := Limit in
  let '(price, price_type) :=
    if market_order
    then (None, match action with BUY => LimitUp | SELL => LimitDown end)
    else (price, price_type) in
  if best_price_limit
  then (None, match action with BUY => LimitDown | SELL => LimitUp end)
  else (price, price_type).

Definition order_type_of (order_cond : OrderCondition) : OrderType :=
  match order_cond with
  | MARGIN_TRADING => Margin
  | SHORT_SELLING => Short
  | DAY_TRADING_SHORT => DayTrade
  | _ => Stock
  end.

(** Native units of a quantity given to [create_order]. *)
Definition native_qty (odd_lot : bool) (quantity : Q) : Z :=
  if odd_lot then Py.int quantity else Py.int (Py.mul64 quantity 1000).

(** The [FBOrder] that [create_order] builds. *)
Definition build_order (now : Q) (action : Action) (stock_id : pyval)
    (quantity : Q) (price : option Q)
    (odd_lot best_price_limit market_order : bool)
    (order_cond : OrderCondition) : FBOrder.t :=
  let buy_sell := match action with BUY => Buy | SELL => Sell end in
  let market_type := market_type_at odd_lot now in
  let '(price, price_type) :=
    resolve_price action price best_price_limit market_order in
  {| FBOrder.buy_sell := buy_sell;
     FBOrder.symbol := stock_id;
     FBOrder.price := price;
     FBOrder.quantity := native_qty odd_lot quantity;
     FBOrder.market_type := market_type;
     FBOrder.price_type := price_type;
     FBOrder.time_in_force := ROD;
     FBOrder.order_type := order_type_of order_cond |}.

(** ** The SDK as an oracle *)

Module Sdk.

(** The requests the class sends.  [modify_quantity] and [modify_price]
    stand for the pair of calls [make_modify_*_obj] then [modify_*]. *)
Inductive call :=
| get_order_results
| place_order (order : FBOrder.t)
| modify_quantity (order_record : pyval) (new_qty : Z)
| modify_price (order_record : pyval) (price : Q)
| cancel_order (order_record : pyval)
| inventories.

Record result := mk_result {
  is_success : bool;
  data : pyval
}.

(** A call raises, or returns a result object, or returns something
    falsy. *)
Inductive response :=
| raises
| returns (r : option result).

(** [result and result.is_success], with the data when it holds. *)
Definition success (r : response) : option pyval :=
  match r with
  | returns (Some res) => if is_success res then Some (data res) else None
  | _ => None
  end.

End Sdk.

(** What the outside world can observe: requests and sleeps, each stamped
    with the clock at which it starts. *)
Inductive Event :=
| Request (at_ : Q) (c : Sdk.call)
| Sleep (at_ : Q) (seconds : Q).

(** The requests of a trace, in order. *)
Fixpoint requests (tr : list Event) : list Sdk.call :=
  match tr with
  | [] => []
  | Request _ c :: tr' => c :: requests tr'
  | Sleep _ _ :: tr' => requests tr'
  end.

(** Everything the class does not control: [float] on strings, the answer
    of the venue to a request and the time the request takes, both as
    functions of what has happened so far, the time by which a sleep
    overshoots, and the reading of [time.time()] at the origin of the
    clock. *)
Record Env := mk_env {
  float_of_str : string -> option Q;
  respond : list Event -> Sdk.call -> Sdk.response;
  latency : list Event -> Sdk.call -> Q;
  oversleep : list Event -> Q -> Q;
  unix_epoch : Q
}.

(** The account object and its surroundings. *)
Record World := mk_world {
  clock : Q;
  timestamp_for_get_position : Q;
  trace : list Event
}.

Inductive Exception := ValueError | TypeError.

Inductive outcome (A : Type) :=
| Raise (e : Exception)
| Return (a : A).
Arguments Raise {A} e.
Arguments Return {A} a.

(** State-passing computations over the world. *)
Definition M (A : Type) : Type := World -> A * World.

Definition ret {A : Type} (a : A) : M A := fun w => (a, w).

Definition bind {A B : Type} (m : M A) (k : A -> M B) : M B :=
  fun w => let '(a, w') := m w in k a w'.

Notation "'let*' x ':=' m 'in' k" := (bind m (fun x => k))
  (at level 10, x name, m at level 100, k at level 200).

Section Account.

Variable env : Env.

(** [datetime.datetime.now()] *)
Definition datetime_now : M Q := fun w => (clock w, w).

(** [time.sleep(seconds)]: the caller is suspended for at least
    [seconds]. *)
Definition time_sleep (seconds : Q) : M unit := fun w =>
  (tt, {| clock := clock w + seconds + oversleep env (trace w) seconds;
          timestamp_for_get_position := timestamp_for_get_position w;
          trace := trace w ++ [Sleep (clock w) seconds] |}).

(** A request to the SDK. *)
Definition sdk (c : Sdk.call) : M Sdk.response := fun w =>
  (respond env (trace w) c,
   {| clock := clock w + latency env (trace w) c;
      timestamp_for_get_position := timestamp_for_get_position w;
      trace := trace w ++ [Request (clock w) c] |}).

Definition get_timestamp : M Q := fun w => (timestamp_for_get_position w, w).

Definition set_timestamp (t : Q) : M unit := fun w =>
  (tt, {| clock := clock w; timestamp_for_get_position := t; trace := trace w |}).

Definition float := Py.float (float_of_str env).

(** *** [_create_finlab_order]; [None] is the exception it re-raises. *)
Definition _create_finlab_order (order : pyval) : option Order.t :=
  let order_id := Py.getattr order "order_no" (Py.Str "") in
  let stock_id := Py.getattr order "stock_no" (Py.Str "") in
  match float (Py.or_ (Py.getattr order "price" (Py.Int 0)) (Py.Int 0)) with
  | None => None
  | Some price =>
    let status_code := Py.getattr order "status" (Py.Int 0) in
    match float (Py.or_ (Py.getattr order "filled_qty" (Py.Int 0)) (Py.Int 0)),
          float (Py.or_ (Py.getattr order "after_qty" (Py.Int 0)) (Py.Int 0)) with
    | Some filled_qty, Some after_qty =>
      let status := order_status status_code filled_qty after_qty in
      let market_type := Py.getattr order "market_type" Py.None_ in
      let is_odd_lot := is_odd_market market_type in
      let divisor := if is_odd_lot then 1%Q else 1000%Q in
      let quantity := (after_qty / divisor)%Q in
      let filled_quantity := (filled_qty / divisor)%Q in
      let action :=
        match _map_order_action order with Some a => a | None => BUY end in
      Some {| Order.order_id := order_id;
              Order.stock_id := stock_id;
              Order.action := action;
              Order.price := price;
              Order.quantity := quantity;
              Order.filled_quantity := filled_quantity;
              Order.status := status;
              Order.org_order := order |}
    | _, _ => None
    end
  end.

(** The loop of [get_orders].  The dict is keyed by order number; a key
    that is not a string can never equal the string that [update_order]
    and [cancel_order] look up, so only string keys are kept. *)
Definition add_order (order_dict : gmap string Order.t) (order : pyval)
    : gmap string Order.t :=
  match _create_finlab_order order with
  | Some finlab_order =>
      match Order.order_id finlab_order with
      | Py.Str k => <[k := finlab_order]> order_dict
      | _ => order_dict
      end
  | None => order_dict
  end.

(** The dict built from the answer to [get_order_results]: empty when the
    call raised or failed, or when the data cannot be iterated. *)
Definition order_dict_of (result : Sdk.response) : gmap string Order.t :=
  match Sdk.success result with
  | None => ∅
  | Some orders =>
      match Py.iter orders with
      | Some l => fold_left add_order l ∅
      | None => ∅
      end
  end.

(** *** [get_orders] *)
Definition get_orders : M (gmap string Order.t) :=
  let* result := sdk Sdk.get_order_results in
  ret (order_dict_of result).

(** *** [_get_order_id]; [time_time] is the reading of [time.time()]. *)
Definition _get_order_id (order : pyval) (time_time : Q) : pyval :=
  if Py.hasattr order "order_no" then Py.getattr order "order_no" Py.None_
  else match order with
  | Py.Dict d =>
      Py.get d "order_no" (Py.get d "orderNo" (Py.get d "ordNo" (Py.Str "")))
  | _ =>
      if Py.hasattr order "orderNo" then Py.getattr order "orderNo" Py.None_
      else if Py.hasattr order "ordNo" then Py.getattr order "ordNo" Py.None_
      else if Py.hasattr order "seq_no" then Py.getattr order "seq_no" Py.None_
      else if Py.hasattr order "seqNo" then Py.getattr order "seqNo" Py.None_
      else Py.Str ("unknown_" ++ pretty (Py.int time_time))%string
  end.

(** *** [create_order]: the order number, [Py.None_] for [None], or the
    [ValueError] of the quantity check. *)
Definition create_order (action : Action) (stock_id : pyval) (quantity : Q)
    (price : option Q) (odd_lot best_price_limit market_order : bool)
    (order_cond : OrderCondition) : M (outcome pyval) :=
  if Py.leb quantity 0 then ret (Raise ValueError)
  else
    let* now := datetime_now in
    let order := build_order now action stock_id quantity price
                   odd_lot best_price_limit market_order order_cond in
    let* result := sdk (Sdk.place_order order) in
    match Sdk.success result with
    | None => ret (Return Py.None_)
    | Some data =>
        let* t := datetime_now in
        ret (Return (_get_order_id data (t + unix_epoch env)))
    end.

(** *** [update_order], price part.  The result tells whether control
    reaches the quantity part: [false] is an early [return] or an exception
    caught by the outermost handler. *)
Definition update_price (order : Order.t) (price : Q) : M bool :=
  let order_record := Order.org_order order in
  if is_odd_market (Py.getattr order_record "market_type" (Py.Str ""))
  then
    let action := Order.action order in
    let stock_id := Order.stock_id order in
    let filled_qty := Py.getattr order_record "filled_qty" (Py.Int 0) in
    let org_qty :=
      Py.getattr order_record "after_qty"
        (Py.getattr order_record "quantity" (Py.Int 0)) in
    match float org_qty, float filled_qty with
    | Some o, Some f =>
        let qty := (o - f)%Q in
        let* cancel_result := sdk (Sdk.modify_quantity order_record 0) in
        match Sdk.success cancel_result with
        | None => ret false
        | Some _ =>
            if Py.ltb 0 qty
            then
              let* r := create_order action stock_id (qty / 1000)%Q (Some price)
                          true false false CASH in
              match r with
              | Raise _ => ret false
              | Return _ => ret true
              end
            else ret true
        end
    | _, _ => ret false
    end
  else
    let* _ := sdk (Sdk.modify_price order_record price) in
    ret true.

(** *** [update_order], quantity part. *)
Definition update_quantity (order : Order.t) (quantity : Q) : M unit :=
  let order_record := Order.org_order order in
  let market_type := Py.getattr order_record "market_type" Py.None_ in
  let is_odd_lot := is_odd_market market_type in
  match float (Py.getattr order_record "filled_qty" (Py.Int 0)) with
  | None => ret tt
  | Some filled_qty =>
      let new_qty :=
        if is_odd_lot
        then Py.int quantity + Py.int filled_qty
        else Py.int (Py.mul64 quantity 1000) + Py.int filled_qty in
      let* _ := sdk (Sdk.modify_quantity order_record new_qty) in
      ret tt
  end.

(** [if price is not None: ...] *)
Definition price_step (order : Order.t) (price : option Q) : M bool :=
  match price with
  | Some p => update_price order p
  | None => ret true
  end.

(** [if quantity is not None: ...] *)
Definition quantity_step (order : Order.t) (quantity : option Q) : M unit :=
  match quantity with
  | Some q => update_quantity order q
  | None => ret tt
  end.

(** *** [update_order] *)
Definition update_order (order_id : string) (price quantity : option Q) : M unit :=
  let* orders := get_orders in
  match orders !! order_id with
  | None => ret tt
  | Some order =>
      let* go_on := price_step order price in
      if go_on then quantity_step order quantity else ret tt
  end.

(** *** [cancel_order] *)
Definition cancel_order (order_id : string) : M unit :=
  let* orders := get_orders in
  match orders !! order_id with
  | None => ret tt
  | Some order =>
      let org_order := Order.org_order order in
      let can_cancel := Py.getattr org_order "can_cancel" (Py.Bool true) in
      if Py.truthy can_cancel
      then let* _ := sdk (Sdk.cancel_order org_order) in ret tt
      else ret tt
  end.

(** *** [get_position] *)

(** The body of the loop over the inventories: the entries one record
    appends to [positions].  An exception inside the body is caught per
    record; it can only happen before the first [append]. *)
Definition inventory_entries (inventory : pyval) : list Entry.t :=
  let stock_id := Py.getattr inventory "stock_no" (Py.Str "") in
  if negb (Py.truthy stock_id) then []
  else
    let order_type := Py.getattr inventory "order_type" Py.None_ in
    let order_condition :=
      match order_type with
      | Py.EOrderType Margin => MARGIN_TRADING
      | Py.EOrderType Short => SHORT_SELLING
      | Py.EOrderType DayTrade => DAY_TRADING_SHORT
      | _ => CASH
      end in
    let today_qty := Py.getattr inventory "today_qty" (Py.Int 0) in
    if negb (Py.truthy today_qty) then []
    else
      let quantity_sign :=
        if OrderCondition_eqb order_condition SHORT_SELLING then (-1)%Q else 1%Q in
      match float today_qty with
      | None => []
      | Some today =>
          let quantity := (today / 1000 * quantity_sign)%Q in
          let whole :=
            if Py.ltb 0 today
            then [ {| Entry.stock_id := stock_id;
                      Entry.quantity := quantity;
                      Entry.order_condition := order_condition |} ]
            else [] in
          let odd_lot := Py.getattr inventory "odd" Py.None_ in
          if Py.truthy odd_lot && Py.hasattr odd_lot "today_qty"
             && Py.truthy (Py.getattr odd_lot "today_qty" Py.None_)
          then
            match float (Py.getattr odd_lot "today_qty" Py.None_) with
            | None => []
            | Some odd_qty =>
                (if Py.ltb 0 odd_qty
                 then [ {| Entry.stock_id := stock_id;
                           Entry.quantity := (odd_qty / 1000 * quantity_sign)%Q;
                           Entry.order_condition := order_condition |} ]
                 else [])
                ++ whole
            end
          else whole
      end.

(** The list handed to [Position.from_list]; the empty list stands for
    [Position({})]. *)
Definition get_position : M (list Entry.t) :=
  let* now := datetime_now in
  let* last := get_timestamp in
  let total_seconds := (now - last)%Q in
  let* _ :=
    if Py.ltb total_seconds 10
    then time_sleep (10 - total_seconds)%Q
    else ret tt in
  let* result := sdk Sdk.inventories in
  match result with
  | Sdk.raises => ret []
  | Sdk.returns _ =>
      let* t := datetime_now in
      let* _ := set_timestamp t in
      match Sdk.success result with
      | None => ret []
      | Some inventories =>
          match Py.iter inventories with
          | Some l => ret (flat_map inventory_entries l)
          | None => ret []
          end
      end
  end.

(** *** [_create_finlab_stock] *)

(** [float(v or 0)] *)
Definition float_or_0 (v : pyval) : option Q := float (Py.or_ v (Py.Int 0)).

(** Best price and size of one side of the book: the block that the source
    writes once for [bids] and once for [asks].  [None] is an exception. *)
Definition best_level (side : pyval) : option (Q * Q) :=
  if Py.truthy side
  then
    match Py.len side with
    | None => None
    | Some n =>
        if (0 <? n)%nat
        then
          match Py.item0 side with
          | None => None
          | Some first =>
              let '(p, s) :=
                match first with
                | Py.Dict d =>
                    if Py.contains d "price"
                    then (float_or_0 (Py.get d "price" (Py.Int 0)),
                          float_or_0 (Py.get d "size" (Py.Int 0)))
                    else (float_or_0 (Py.getattr first "price" (Py.Int 0)),
                          float_or_0 (Py.getattr first "size" (Py.Int 0)))
                | _ => (float_or_0 (Py.getattr first "price" (Py.Int 0)),
                        float_or_0 (Py.getattr first "size" (Py.Int 0)))
                end in
              match p, s with
              | Some p, Some s => Some (p, s)
              | _, _ => None
              end
          end
        else Some (0%Q, 0%Q)
    end
  else Some (0%Q, 0%Q).

(** The symbol and the four prices; a [None] among the prices is an
    exception. *)
Definition quote_fields (quote original_stock_id : pyval)
    : pyval * (option Q * option Q * option Q * option Q) :=
  match quote with
  | Py.Dict d =>
      (Py.get d "symbol" original_stock_id,
       (float_or_0 (Py.get d "openPrice" (Py.Int 0)),
        float_or_0 (Py.get d "highPrice" (Py.Int 0)),
        float_or_0 (Py.get d "lowPrice" (Py.Int 0)),
        float_or_0 (Py.get d "closePrice" (Py.Int 0))))
  | _ =>
      (Py.getattr quote "symbol" (Py.or_ original_stock_id (Py.Str "")),
       (float_or_0 (Py.getattr quote "open_price"
                      (Py.getattr quote "openPrice" (Py.Int 0))),
        float_or_0 (Py.getattr quote "high_price"
                      (Py.getattr quote "highPrice" (Py.Int 0))),
        float_or_0 (Py.getattr quote "low_price"
                      (Py.getattr quote "lowPrice" (Py.Int 0))),
        float_or_0 (Py.getattr quote "close_price"
                      (Py.getattr quote "closePrice"
                         (Py.getattr quote "lastPrice" (Py.Int 0))))))
  end.

(** [quote.get(name, [])] on a dict, [getattr(quote, name, [])] otherwise. *)
Definition book_side (quote : pyval) (name : string) : pyval :=
  match quote with
  | Py.Dict d => Py.get d name (Py.List [])
  | _ => Py.getattr quote name (Py.List [])
  end.

(** The [try] block; [None] is any exception raised inside it. *)
Definition try_create_finlab_stock (quote original_stock_id : pyval)
    : option FinlabStock.t :=
  match quote_fields quote original_stock_id with
  | (stock_id, (Some open_price, Some high_price, Some low_price, Some close_price)) =>
      let bids := book_side quote "bids" in
      let asks := book_side quote "asks" in
      match best_level bids, best_level asks with
      | Some (bid_price, bid_volume), Some (ask_price, ask_volume) =>
          let stock_id :=
            if negb (Py.truthy stock_id) && Py.truthy original_stock_id
            then original_stock_id else stock_id in
          Some {| FinlabStock.stock_id := stock_id;
                  FinlabStock.open := open_price;
                  FinlabStock.high := high_price;
                  FinlabStock.low := low_price;
                  FinlabStock.close := close_price;
                  FinlabStock.bid_price := bid_price;
                  FinlabStock.ask_price := ask_price;
                  FinlabStock.bid_volume := bid_volume;
                  FinlabStock.ask_volume := ask_volume |}
      | _, _ => None
      end
  | _ => None
  end.

(** The quote of the [except] branch. *)
Definition zero_stock (original_stock_id : pyval) : FinlabStock.t :=
  {| FinlabStock.stock_id := original_stock_id;
     FinlabStock.open := 0; FinlabStock.high := 0;
     FinlabStock.low := 0; FinlabStock.close := 0;
     FinlabStock.bid_price := 0; FinlabStock.ask_price := 0;
     FinlabStock.bid_volume := 0; FinlabStock.ask_volume := 0 |}.

Definition _create_finlab_stock (quote original_stock_id : pyval)
    : outcome FinlabStock.t :=
  match try_create_finlab_stock quote original_stock_id with
  | Some stock => Return stock
  | None => Return (zero_stock original_stock_id)
  end.

End Account.

Arguments datetime_now /.
Arguments get_timestamp /.

(** * Worlds, records and wordings used in the statements *)

(** The world right after a request [c] issued in [w]. *)
Definition after_request (env : Env) (c : Sdk.call) (w : World) : World :=
  snd (sdk env c w).

(** Seconds into the day of an instant, the fraction dropped. *)
Definition second_of_day (now : Q) : Z := Qfloor now mod 86400.

(** Time of day of an instant, in seconds, the fraction kept. *)
Definition time_of_day (now : Q) : Q :=
  (now - inject_Z (86400 * (Qfloor now / 86400)))%Q.

(** The classification in the words of the specification: open windows on
    the wall-clock time, 13:40 to 14:30 for fractional orders and 14:00 to
    14:30 for the others. *)
Definition claimed_session (is_fractional : bool) (now : Q) : MarketType :=
  let t := time_of_day now in
  if is_fractional
  then if Py.ltb 49200 t && Py.ltb t 52200 then Odd else IntradayOdd
  else if Py.ltb 50400 t && Py.ltb t 52200 then Fixing else Common.

(** The classification the code computes, on whole seconds of the day: the
    windows open with the first second of the minute after 13:40 (14:00)
    and close before 14:30:00. *)
Definition session_by_minute (odd_lot : bool) (s : Z) : MarketType :=
  if odd_lot
  then if (49260 <=? s)%Z && (s <? 52200)%Z then Odd else IntradayOdd
  else if (50460 <=? s)%Z && (s <? 52200)%Z then Fixing else Common.

(** An odd-lot buy order of 500 shares, nothing filled yet. *)
Definition odd_lot_record : pyval :=
  Py.Obj [("order_no", Py.Str "W0001"); ("stock_no", Py.Str "0056");
          ("buy_sell", Py.EBSAction Buy); ("price", Py.Float 32);
          ("status", Py.Int 10); ("filled_qty", Py.Int 0);
          ("after_qty", Py.Int 500); ("market_type", Py.EMarket IntradayOdd)].

(** A venue that answers the two list queries with [records] and accepts
    every other request, all at once. *)
Definition obliging_venue (records : list pyval) : Env :=
  {| float_of_str := fun _ => None;
     respond := fun _ c =>
       match c with
       | Sdk.get_order_results | Sdk.inventories =>
           Sdk.returns (Some (Sdk.mk_result true (Py.List records)))
       | _ => Sdk.returns (Some (Sdk.mk_result true Py.None_))
       end;
     latency := fun _ _ => 0%Q;
     oversleep := fun _ _ => 0%Q;
     unix_epoch := 0%Q |}.

(** Ten in the morning of the first day, nothing sent yet. *)
Definition morning : World :=
  {| clock := 36000; timestamp_for_get_position := 0; trace := [] |}.

(** An inventory record of the SDK: whole-lot and odd-lot balance of one
    instrument, in shares. *)
Definition inventory_record (stock_no : string) (order_type : OrderType)
    (today_qty odd_today_qty : Z) : pyval :=
  Py.Obj [("stock_no", Py.Str stock_no);
          ("order_type", Py.EOrderType order_type);
          ("today_qty", Py.Int today_qty);
          ("odd", Py.Obj [("today_qty", Py.Int odd_today_qty)])].

Definition condition_of (order_type : OrderType) : OrderCondition :=
  match order_type with
  | Margin => MARGIN_TRADING
  | Short => SHORT_SELLING
  | DayTrade => DAY_TRADING_SHORT
  | _ => CASH
  end.

Definition sign_of (order_type : OrderType) : Q :=
  match order_type with Short => (-1)%Q | _ => 1%Q end.

(** The instant at which a call of [get_position] that starts in [w] sends
    its query. *)
Definition query_instant (env : Env) (w : World) : Q :=
  let total_seconds := (clock w - timestamp_for_get_position w)%Q in
  if Py.ltb total_seconds 10
  then (clock w + (10 - total_seconds)
        + oversleep env (trace w) (10 - total_seconds))%Q
  else clock w.

(** What a call of [get_position] that starts in [w] appends to the trace. *)
Definition position_events (env : Env) (w : World) : list Event :=
  let total_seconds := (clock w - timestamp_for_get_position w)%Q in
  (if Py.ltb total_seconds 10
   then [Sleep (clock w) (10 - total_seconds)]
   else [])
  ++ [Request (query_instant env w) Sdk.inventories].

(** The instant at which that query returns. *)
Definition query_return (env : Env) (w : World) : Q :=
  (query_instant env w
   + latency env (trace w ++ removelast (position_events env w)) Sdk.inventories)%Q.

(** The world [gap] seconds later, the account left alone meanwhile. *)
Definition elapse (gap : Q) (w : World) : World :=
  {| clock := clock w + gap;
     timestamp_for_get_position := timestamp_for_get_position w;
     trace := trace w |}.

(** A venue like the obliging one that takes two seconds over every
    request. *)
Definition slow_venue (records : list pyval) : Env :=
  {| float_of_str := float_of_str (obliging_venue records);
     respond := respond (obliging_venue records);
     latency := fun _ _ => 2%Q;
     oversleep := fun _ _ => 0%Q;
     unix_epoch := 0%Q |}.

(** The record carries no field called [name]. *)
Definition absent (quote : pyval) (name : string) : Prop :=
  match quote with
  | Py.Dict d | Py.Obj d => Py.assoc name d = None
  | _ => True
  end.

(** The field [name] of a level of the book, 0 when it has none. *)
Definition level_field (level : pyval) (name : string) : pyval :=
  match level with
  | Py.Dict d => Py.get d name (Py.Int 0)
  | _ => Py.getattr level name (Py.Int 0)
  end.

(** "A non-empty list yields the price and size of its first element". *)
Definition first_level_reported (env : Env) (side : pyval) (price size : Q) : Prop :=
  forall first rest,
    side = Py.List (first :: rest) ->
    float_or_0 env (level_field first "price") = Some price
    /\ float_or_0 env (level_field first "size") = Some size.

(** What the code reads as a price of the record: the entry [camel] of a
    map, the attribute [snake] or else [camel] of anything else, 0 when
    there is none. *)
Definition price_read (quote : pyval) (snake camel : string) : pyval :=
  match quote with
  | Py.Dict d => Py.get d camel (Py.Int 0)
  | _ => Py.getattr quote snake (Py.getattr quote camel (Py.Int 0))
  end.

(** The closing price has a third name, on objects only. *)
Definition close_read (quote : pyval) : pyval :=
  match quote with
  | Py.Dict d => Py.get d "closePrice" (Py.Int 0)
  | _ => Py.getattr quote "close_price"
           (Py.getattr quote "closePrice" (Py.getattr quote "lastPrice" (Py.Int 0)))
  end.

(** What the code reads as the field [name] of the first level of a side:
    the entry of a map that has a price, the attribute of anything else. *)
Definition level_read (first : pyval) (name : string) : pyval :=
  match first with
  | Py.Dict d =>
      if Py.contains d "price" then Py.get d name (Py.Int 0)
      else Py.getattr first name (Py.Int 0)
  | _ => Py.getattr first name (Py.Int 0)
  end.

(** A side of the book on which the code fails: it is truthy and has no
    length, or no first element, or a first element whose price or size
    does not convert. *)
Definition unreadable (env : Env) (side : pyval) : Prop :=
  Py.truthy side = true
  /\ match Py.len side with
     | None => True
     | Some n =>
         (0 < n)%nat
         /\ match Py.item0 side with
            | None => True
            | Some first =>
                float_or_0 env (level_read first "price") = None
                \/ float_or_0 env (level_read first "size") = None
            end
     end.

(** A quote whose opening price is not a number, everything else being in
    order. *)
Definition quote_with_bad_open : pyval :=
  Py.Dict [("symbol", Py.Str "2330"); ("openPrice", Py.List [Py.Int 98]);
           ("highPrice", Py.Int 101); ("lowPrice", Py.Int 97);
           ("closePrice", Py.Int 100);
           ("bids", Py.List [Py.Dict [("price", Py.Float (199 # 2));
                                      ("size", Py.Int 1000)]]);
           ("asks", Py.List [Py.Dict [("price", Py.Float (201 # 2));
                                      ("size", Py.Int 1500)]])].

(** A quote with a well-formed bid whose closing price is a nested map. *)
Definition quote_with_nested_close : pyval :=
  Py.Dict [("symbol", Py.Str "2330");
           ("closePrice", Py.Dict [("value", Py.Int 100)]);
           ("bids", Py.List [Py.Dict [("price", Py.Float (199 # 2));
                                      ("size", Py.Int 1000)]])].

(** A quote without any price whose first bid carries a size only. *)
Definition quote_with_unpriced_bid : pyval :=
  Py.Dict [("bids", Py.List [Py.Dict [("size", Py.Int 5)]])].

(** A whole-lot buy order of one lot, 300 shares filled. *)
Definition whole_lot_record : pyval :=
  Py.Obj [("order_no", Py.Str "A0001"); ("stock_no", Py.Str "2330");
          ("buy_sell", Py.EBSAction Buy); ("price", Py.Int 600);
          ("status", Py.Int 10); ("filled_qty", Py.Int 300);
          ("after_qty", Py.Int 1000); ("market_type", Py.EMarket Common)].

(** Its normalized form. *)
Definition whole_lot_order : Order.t :=
  {| Order.order_id := Py.Str "A0001";
     Order.stock_id := Py.Str "2330";
     Order.action := BUY;
     Order.price := 600;
     Order.quantity := 1000 / 1000;
     Order.filled_quantity := 300 / 1000;
     Order.status := PARTIALLY_FILLED;
     Order.org_order := whole_lot_record |}.

(** The quote of the end-to-end example. *)
Definition example_quote : pyval :=
  Py.Dict [("symbol", Py.Str "X"); ("closePrice", Py.Int 100);
           ("openPrice", Py.Int 98);
           ("bids", Py.List [Py.Dict [("price", Py.Float (199 # 2));
                                      ("size", Py.Int 1000)]]);
           ("asks", Py.List [Py.Dict [("price", Py.Float (201 # 2));
                                      ("size", Py.Int 1500)]])].

(** * The rest of the class *)

(** ** [_map_order_condition] *)

(** [pat in s] on strings *)
Fixpoint str_contains (pat s : string) : bool :=
  String.prefix pat s
  || match s with
     | EmptyString => false
     | String _ s' => str_contains pat s'
     end.

(** The mapping never raises: an order type that is neither one of the
    four constants nor a string that names one falls to [CASH]. *)
Definition _map_order_condition (order : pyval) : OrderCondition :=
  match Py.getattr order "order_type" Py.None_ with
  | Py.EOrderType Stock => CASH
  | Py.EOrderType Margin => MARGIN_TRADING
  | Py.EOrderType Short => SHORT_SELLING
  | Py.EOrderType DayTrade => DAY_TRADING_SHORT
  | Py.Str s =>
      let order_type := Py.upper s in
      if str_contains "現股" order_type || str_contains "STOCK" order_type
      then CASH
      else if str_contains "融資" order_type || str_contains "MARGIN" order_type
      then MARGIN_TRADING
      else if str_contains "融券" order_type || str_contains "SHORT" order_type
      then SHORT_SELLING
      else if str_contains "當沖" order_type || str_contains "DAYTRADE" order_type
      then DAY_TRADING_SHORT
      else CASH
  | _ => CASH
  end.

(** ** The accounting side of the SDK: [get_cash], [get_settlement],
    [get_total_balance], [support_day_trade_condition]

    These methods talk to [sdk.accounting] and [sdk.account] only and read
    no clock, so their world is the list of the requests sent so far. *)

Module Accounting.

Inductive call :=
| bank_remain
| query_settlement (time_range : string)
| inventories
| get_account_info.

(** State-passing computations over the requests sent so far. *)
Definition M (A : Type) : Type := list call -> A * list call.

Definition ret {A : Type} (a : A) : M A := fun tr => (a, tr).

Definition bind {A B : Type} (m : M A) (k : A -> M B) : M B :=
  fun tr => let '(a, tr') := m tr in k a tr'.

(** [result and result.is_success and result.data], with the data when it
    holds. *)
Definition success_with_data (r : Sdk.response) : option pyval :=
  match Sdk.success r with
  | Some data => if Py.truthy data then Some data else None
  | None => None
  end.

(** [s.replace(',', '')] *)
Fixpoint remove_commas (s : string) : string :=
  match s with
  | EmptyString => EmptyString
  | String c s' =>
      if Ascii.eqb c "," then remove_commas s' else String c (remove_commas s')
  end.

(** The six running sums of [get_total_balance]. *)
Record sums := mk_sums {
  total_market_value : Q;
  margin_position_market_value : Q;
  margin_amount : Q;
  short_position_market_value : Q;
  short_collateral : Q;
  guarantee_amount : Q
}.

Definition no_sums : sums := mk_sums 0 0 0 0 0 0.

End Accounting.

Notation "'let+' x ':=' m 'in' k" := (Accounting.bind m (fun x => k))
  (at level 10, x name, m at level 100, k at level 200).

Section AccountingMethods.

(** [float] on strings, and the answer of the venue to a request as a
    function of the requests before it. *)
Variable to_float : string -> option Q.
Variable answer : list Accounting.call -> Accounting.call -> Sdk.response.

(** A request to the SDK. *)
Definition ask (c : Accounting.call) : Accounting.M Sdk.response :=
  fun tr => (answer tr c, tr ++ [c]).

(** *** [get_cash] *)
Definition get_cash : Accounting.M Q :=
  let+ result := ask Accounting.bank_remain in
  match Accounting.success_with_data result with
  | Some data =>
      let available_balance := Py.getattr data "available_balance" (Py.Int 0) in
      let available_balance :=
        match available_balance with
        | Py.Str s => Py.Str (Accounting.remove_commas s)
        | v => v
        end in
      match Py.float to_float available_balance with
      | Some balance => Accounting.ret balance
      | None => Accounting.ret 0%Q
      end
  | None => Accounting.ret 0%Q
  end.

(** *** [get_settlement] *)

(** The body of the loop over the details: the running total after one
    detail.  A detail without settlement date, without amount, or with an
    amount that does not convert leaves the total as it is. *)
Definition add_detail (total : Q) (detail : pyval) : Q :=
  if negb (Py.truthy (Py.getattr detail "settlement_date" Py.None_)) then total
  else
    match Py.getattr detail "total_settlement_amount" Py.None_ with
    | Py.None_ => total
    | amount =>
        match Py.float to_float amount with
        | Some a => (total + a)%Q
        | None => total
        end
    end.

(** The running total after the answer to one of the two queries. *)
Definition add_window (total : Q) (result : Sdk.response) : Q :=
  match Accounting.success_with_data result with
  | Some settlement_data =>
      if Py.hasattr settlement_data "details"
         && Py.truthy (Py.getattr settlement_data "details" Py.None_)
      then
        match Py.iter (Py.getattr settlement_data "details" Py.None_) with
        | Some details => fold_left add_detail details total
        | None => total
        end
      else total
  | None => total
  end.

Definition get_settlement : Accounting.M Q :=
  let total_settlement := 0%Q in
  let+ result := ask (Accounting.query_settlement "3d") in
  let total_settlement := add_window total_settlement result in
  let+ result := ask (Accounting.query_settlement "0d") in
  let total_settlement := add_window total_settlement result in
  Accounting.ret total_settlement.

(** *** [get_total_balance] *)

(** Market value of one inventory record; [None] is an exception. *)
Definition position_market_value (inventory : pyval) : option Q :=
  if Py.hasattr inventory "market_value"
  then Py.float to_float
         (Py.or_ (Py.getattr inventory "market_value" (Py.Int 0)) (Py.Int 0))
  else if Py.hasattr inventory "today_qty" && Py.hasattr inventory "price"
  then
    match Py.float to_float
            (Py.or_ (Py.getattr inventory "today_qty" (Py.Int 0)) (Py.Int 0)),
          Py.float to_float
            (Py.or_ (Py.getattr inventory "price" (Py.Int 0)) (Py.Int 0)) with
    | Some qty, Some price => Some (qty * price)%Q
    | _, _ => None
    end
  else Some 0%Q.

(** [float(getattr(inventory, name, 0) or 0)] *)
Definition amount_of (inventory : pyval) (name : string) : option Q :=
  Py.float to_float (Py.or_ (Py.getattr inventory name (Py.Int 0)) (Py.Int 0)).

(** The body of the loop over the inventories.  An exception ends the body
    and keeps the sums already updated. *)
Definition add_inventory (s : Accounting.sums) (inventory : pyval) : Accounting.sums :=
  match position_market_value inventory with
  | None => s
  | Some value =>
      let total := (Accounting.total_market_value s + value)%Q in
      let margin_value := Accounting.margin_position_market_value s in
      let margin := Accounting.margin_amount s in
      let short_value := Accounting.short_position_market_value s in
      let collateral := Accounting.short_collateral s in
      let guarantee := Accounting.guarantee_amount s in
      match Py.getattr inventory "order_type" Py.None_ with
      | Py.EOrderType Margin =>
          let margin_value := (margin_value + value)%Q in
          let margin :=
            if Py.hasattr inventory "margin_amount"
            then match amount_of inventory "margin_amount" with
                 | Some a => (margin + a)%Q
                 | None => margin
                 end
            else margin in
          Accounting.mk_sums total margin_value margin short_value collateral guarantee
      | Py.EOrderType Short =>
          let short_value := (short_value + value)%Q in
          if Py.hasattr inventory "short_collateral"
          then
            match amount_of inventory "short_collateral" with
            | None =>
                Accounting.mk_sums total margin_value margin short_value
                  collateral guarantee
            | Some c =>
                let collateral := (collateral + c)%Q in
                let guarantee :=
                  if Py.hasattr inventory "guarantee_amount"
                  then match amount_of inventory "guarantee_amount" with
                       | Some g => (guarantee + g)%Q
                       | None => guarantee
                       end
                  else guarantee in
                Accounting.mk_sums total margin_value margin short_value
                  collateral guarantee
            end
          else
            let guarantee :=
              if Py.hasattr inventory "guarantee_amount"
              then match amount_of inventory "guarantee_amount" with
                   | Some g => (guarantee + g)%Q
                   | None => guarantee
                   end
              else guarantee in
            Accounting.mk_sums total margin_value margin short_value
              collateral guarantee
      | _ =>
          Accounting.mk_sums total margin_value margin short_value collateral guarantee
      end
  end.

(** The net value computed from the sums. *)
Definition total_balance (s : Accounting.sums) (cash settlements : Q) : Q :=
  let cash_position_market_value :=
    (Accounting.total_market_value s
     - Accounting.margin_position_market_value s
     - Accounting.short_position_market_value s)%Q in
  (cash_position_market_value
   + (Accounting.margin_position_market_value s - Accounting.margin_amount s)
   + (Accounting.short_collateral s + Accounting.guarantee_amount s
      - Accounting.short_position_market_value s)
   + cash
   + settlements)%Q.

Definition get_total_balance : Accounting.M Q :=
  let+ cash := get_cash in
  let+ settlements := get_settlement in
  let+ position_response := ask Accounting.inventories in
  match Sdk.success position_response with
  | None => Accounting.ret (cash + settlements)%Q
  | Some data =>
      match Py.iter data with
      | None => Accounting.ret (cash + settlements)%Q
      | Some inventories =>
          Accounting.ret
            (total_balance (fold_left add_inventory inventories Accounting.no_sums)
               cash settlements)
      end
  end.

(** *** [support_day_trade_condition] *)

(** [mark in ['B', 'Y', 'A', 'S']] *)
Definition is_day_trade_mark (mark : pyval) : bool :=
  match mark with
  | Py.Str s =>
      String.eqb s "B" || String.eqb s "Y" || String.eqb s "A" || String.eqb s "S"
  | _ => false
  end.

(** The flags looked up in the account information, in order. *)
Definition day_trade_flag (account_info : pyval) : bool :=
  if Py.hasattr account_info "day_trade_enabled"
  then Py.truthy (Py.getattr account_info "day_trade_enabled" Py.None_)
  else if Py.hasattr account_info "day_trade"
  then Py.truthy (Py.getattr account_info "day_trade" Py.None_)
  else if Py.hasattr account_info "dayTradeEnabled"
  then Py.truthy (Py.getattr account_info "dayTradeEnabled" Py.None_)
  else if Py.hasattr account_info "canDayTrade"
  then Py.truthy (Py.getattr account_info "canDayTrade" Py.None_)
  else false.

Definition support_day_trade_condition (target_account : pyval) : Accounting.M bool :=
  if Py.hasattr target_account "s_mark"
  then Accounting.ret
         (is_day_trade_mark (Py.getattr target_account "s_mark" (Py.Str "")))
  else
    let+ info_result := ask Accounting.get_account_info in
    match Accounting.success_with_data info_result with
    | Some account_info => Accounting.ret (day_trade_flag account_info)
    | None => Accounting.ret false
    end.

End AccountingMethods.

(** ** Wordings and records used in the further statements *)

(** What is known of an entry of the dict built from the records [l]. *)
Definition from_records (env : Env) (l : list pyval) (k : string) (o : Order.t) : Prop :=
  exists raw,
    In raw l
    /\ _create_finlab_order env raw = Some o
    /\ Py.getattr raw "order_no" (Py.Str "") = Py.Str k.

(** The answer carries a non-empty list of settlement details. *)
Definition details_of (r : Sdk.response) (l : list pyval) : Prop :=
  exists data,
    Accounting.success_with_data r = Some data
    /\ Py.hasattr data "details" = true
    /\ Py.getattr data "details" Py.None_ = Py.List l
    /\ l <> [].

(** What one settlement detail adds to the total. *)
Definition counted_amount (to_float : string -> option Q) (detail : pyval) : Q :=
  if Py.truthy (Py.getattr detail "settlement_date" Py.None_)
  then match Py.getattr detail "total_settlement_amount" Py.None_ with
       | Py.None_ => 0%Q
       | amount => match Py.float to_float amount with
                   | Some a => a
                   | None => 0%Q
                   end
       end
  else 0%Q.

(** The sum of a list of rationals. *)
Definition Qsum (l : list Q) : Q := fold_right Qplus 0%Q l.

(** The requests that precede the inventory query of [get_total_balance]. *)
Definition before_inventories (tr : list Accounting.call) : list Accounting.call :=
  (tr ++ [Accounting.bank_remain])
  ++ [Accounting.query_settlement "3d"; Accounting.query_settlement "0d"].



(** A record whose price is a list. *)
Definition bad_record : pyval :=
  Py.Obj [("order_no", Py.Str "B0001"); ("price", Py.List [Py.Int 1])].

(** The whole-lot order again, after its quantity was raised to two lots. *)
Definition amended_record : pyval :=
  Py.Obj [("order_no", Py.Str "A0001"); ("stock_no", Py.Str "2330");
          ("buy_sell", Py.Str "sell"); ("price", Py.Int 600);
          ("status", Py.Int 10); ("filled_qty", Py.Int 300);
          ("after_qty", Py.Int 2000); ("market_type", Py.EMarket Common);
          ("order_type", Py.EOrderType Margin); ("can_cancel", Py.Bool false)].

Definition amended_order : Order.t :=
  {| Order.order_id := Py.Str "A0001";
     Order.stock_id := Py.Str "2330";
     Order.action := SELL;
     Order.price := 600;
     Order.quantity := 2000 / 1000;
     Order.filled_quantity := 300 / 1000;
     Order.status := PARTIALLY_FILLED;
     Order.org_order := amended_record |}.

Definition odd_lot_order : Order.t :=
  {| Order.order_id := Py.Str "W0001";
     Order.stock_id := Py.Str "0056";
     Order.action := BUY;
     Order.price := 32;
     Order.quantity := 500 / 1;
     Order.filled_quantity := 0 / 1;
     Order.status := NEW;
     Order.org_order := odd_lot_record |}.

(** A venue that shows [records] and refuses every change. *)
Definition refusing_venue (records : list pyval) : Env :=
  {| float_of_str := fun _ => None;
     respond := fun _ c =>
       match c with
       | Sdk.get_order_results | Sdk.inventories =>
           Sdk.returns (Some (Sdk.mk_result true (Py.List records)))
       | _ => Sdk.returns (Some (Sdk.mk_result false Py.None_))
       end;
     latency := fun _ _ => 0%Q;
     oversleep := fun _ _ => 0%Q;
     unix_epoch := 0%Q |}.

(** Two settlement details, and one without a settlement date. *)
Definition detail_a : pyval :=
  Py.Obj [("settlement_date", Py.Str "2024/01/17");
          ("total_settlement_amount", Py.Int (-32000))].

Definition detail_b : pyval :=
  Py.Obj [("settlement_date", Py.Str "2024/01/16");
          ("total_settlement_amount", Py.Int 12000)].

Definition detail_undated : pyval :=
  Py.Obj [("settlement_date", Py.Str "");
          ("total_settlement_amount", Py.Int 999)].

(** Two cash holdings. *)
Definition cash_holdings : list pyval :=
  [Py.Obj [("stock_no", Py.Str "2330"); ("order_type", Py.EOrderType Stock);
           ("market_value", Py.Int 600000)];
   Py.Obj [("stock_no", Py.Str "0056"); ("order_type", Py.EOrderType Stock);
           ("today_qty", Py.Int 500); ("price", Py.Int 32)]].

(** An accounting side with a balance of 1,234,567, the details above and
    the two holdings; no account information. *)
Definition ledger (tr : list Accounting.call) (c : Accounting.call) : Sdk.response :=
  match c with
  | Accounting.bank_remain =>
      Sdk.returns (Some (Sdk.mk_result true
        (Py.Obj [("available_balance", Py.Str "1,234,567")])))
  | Accounting.query_settlement range =>
      Sdk.returns (Some (Sdk.mk_result true
        (Py.Obj [("details",
                  if String.eqb range "3d"
                  then Py.List [detail_a; detail_undated; detail_b]
                  else Py.List [detail_a])])))
  | Accounting.inventories =>
      Sdk.returns (Some (Sdk.mk_result true (Py.List cash_holdings)))
  | Accounting.get_account_info => Sdk.raises
  end.

(** An accounting side on which every request raises. *)
Definition silent_ledger (tr : list Accounting.call) (c : Accounting.call)
    : Sdk.response := Sdk.raises.

(** [float] on the one string the ledger sends. *)
Definition ledger_float (s : string) : option Q :=
  if String.eqb s "1234567" then Some 1234567%Q else None.

Definition marked_account : pyval :=
  Py.Obj [("account", Py.Str "1234567"); ("s_mark", Py.Str "Y")].

Definition unmarked_account : pyval :=
  Py.Obj [("account", Py.Str "1234567")].







(** * Properties *)

(** ** The world after a request *)

Lemma sdk_run env c w :
  sdk env c w = (respond env (trace w) c, after_request env c w).
Proof. reflexivity. Qed.

Lemma after_request_trace env c w :
  trace (after_request env c w) = trace w ++ [Request (clock w) c].
Proof. reflexivity. Qed.

Lemma requests_app tr1 tr2 : requests (tr1 ++ tr2) = requests tr1 ++ requests tr2.
Proof.
  induction tr1 as [|e tr1 IH]; simpl; [reflexivity|].
  destruct e; simpl; rewrite IH; reflexivity.
Qed.

Lemma after_request_requests env c w :
  requests (trace (after_request env c w)) = requests (trace w) ++ [c].
Proof. rewrite after_request_trace, requests_app. reflexivity. Qed.

Lemma get_orders_run env w :
  get_orders env w =
  (order_dict_of env (respond env (trace w) Sdk.get_order_results),
   after_request env Sdk.get_order_results w).
Proof. reflexivity. Qed.

(** ** Boolean comparisons on rationals *)

Lemma ltb_true x y : Py.ltb x y = true <-> (x < y)%Q.
Proof.
  unfold Py.ltb. rewrite negb_true_iff, <- not_true_iff_false, Qle_bool_iff.
  split; [apply Qnot_le_lt | apply Qlt_not_le].
Qed.

Lemma ltb_false x y : Py.ltb x y = false <-> (y <= x)%Q.
Proof. unfold Py.ltb. rewrite negb_false_iff. apply Qle_bool_iff. Qed.

Lemma leb_true x y : Py.leb x y = true <-> (x <= y)%Q.
Proof. apply Qle_bool_iff. Qed.

Lemma leb_false x y : Py.leb x y = false <-> (y < x)%Q.
Proof.
  unfold Py.leb. rewrite <- not_true_iff_false, Qle_bool_iff.
  split; [apply Qnot_le_lt | apply Qlt_not_le].
Qed.

(** ** Order status *)

Lemma status_of_code_int (code : Z) :
  status_of_code (Py.Int code) =
  if (code =? 10)%Z then NEW
  else if (code =? 30)%Z then CANCEL
  else if (code =? 50)%Z then FILLED
  else if (code =? 90)%Z then CANCEL
  else NEW.
Proof. reflexivity. Qed.

(** The table of the repository's test of the status mapping. *)
Example parse_order_status_mapping :
  map (fun code => status_of_code (Py.Int code)) [10; 30; 50; 90; 99]%Z
  = [NEW; CANCEL; FILLED; CANCEL; NEW].
Proof. reflexivity. Qed.

Lemma order_status_partial status_code filled_qty after_qty :
  (0 < filled_qty)%Q -> (filled_qty < after_qty)%Q ->
  status_of_code status_code <> CANCEL ->
  order_status status_code filled_qty after_qty = PARTIALLY_FILLED.
Proof.
  intros Hpos Hlt Hc. unfold order_status.
  apply ltb_true in Hpos. apply ltb_true in Hlt. rewrite Hpos, Hlt. simpl.
  destruct (status_of_code status_code); simpl; congruence.
Qed.

Lemma order_status_plain status_code filled_qty after_qty :
  ~ ((0 < filled_qty)%Q /\ (filled_qty < after_qty)%Q
     /\ status_of_code status_code <> CANCEL) ->
  order_status status_code filled_qty after_qty = status_of_code status_code.
Proof.
  intros Hn. unfold order_status.
  destruct (Py.ltb 0 filled_qty) eqn:Hpos; simpl; [|reflexivity].
  destruct (Py.ltb filled_qty after_qty) eqn:Hlt; simpl; [|reflexivity].
  destruct (status_of_code status_code) eqn:Hs; simpl; try reflexivity;
    exfalso; apply Hn; apply ltb_true in Hpos; apply ltb_true in Hlt;
    repeat split; auto; congruence.
Qed.

Lemma create_finlab_order_status env order o :
  _create_finlab_order env order = Some o ->
  exists filled_qty after_qty,
    float env (Py.or_ (Py.getattr order "filled_qty" (Py.Int 0)) (Py.Int 0))
      = Some filled_qty
    /\ float env (Py.or_ (Py.getattr order "after_qty" (Py.Int 0)) (Py.Int 0))
      = Some after_qty
    /\ Order.status o
       = order_status (Py.getattr order "status" (Py.Int 0)) filled_qty after_qty.
Proof.
  unfold _create_finlab_order. intros H.
  destruct (float env (Py.or_ (Py.getattr order "price" (Py.Int 0)) (Py.Int 0)));
    [|discriminate].
  destruct (float env (Py.or_ (Py.getattr order "filled_qty" (Py.Int 0)) (Py.Int 0)))
    as [f|]; [|discriminate].
  destruct (float env (Py.or_ (Py.getattr order "after_qty" (Py.Int 0)) (Py.Int 0)))
    as [a|]; [|discriminate].
  injection H as <-. exists f, a. repeat split; reflexivity.
Qed.

(** C2.  The status of a normalized order is a function of the raw triple
    (status code, filled quantity, total quantity) of the broker record
    alone: code 10 gives NEW, 30 CANCEL, 50 FILLED, 90 CANCEL, any other
    code NEW; and when [0 < filled < total] and the code-derived status is
    not CANCEL the status is PARTIALLY_FILLED whatever the code. *)
Theorem status_from_raw_triple env order o (code : Z) (filled total : Q) :
  _create_finlab_order env order = Some o ->
  Py.getattr order "status" (Py.Int 0) = Py.Int code ->
  float env (Py.or_ (Py.getattr order "filled_qty" (Py.Int 0)) (Py.Int 0))
    = Some filled ->
  float env (Py.or_ (Py.getattr order "after_qty" (Py.Int 0)) (Py.Int 0))
    = Some total ->
  let mapped :=
    if (code =? 10)%Z then NEW
    else if (code =? 30)%Z then CANCEL
    else if (code =? 50)%Z then FILLED
    else if (code =? 90)%Z then CANCEL
    else NEW in
  ((0 < filled)%Q /\ (filled < total)%Q /\ mapped <> CANCEL ->
   Order.status o = PARTIALLY_FILLED)
  /\ (~ ((0 < filled)%Q /\ (filled < total)%Q /\ mapped <> CANCEL) ->
      Order.status o = mapped).
Proof.
  intros Ho Hcode Hf Ht mapped.
  destruct (create_finlab_order_status env order o Ho) as (f & a & Hf' & Ha' & Hs).
  rewrite Hf in Hf'. rewrite Ht in Ha'. injection Hf' as <-. injection Ha' as <-.
  rewrite Hcode in Hs. rewrite Hs. subst mapped.
  rewrite <- status_of_code_int. split.
  - intros (H1 & H2 & H3). apply order_status_partial; assumption.
  - intros Hn. apply order_status_plain. exact Hn.
Qed.

(** ** [create_order] *)

Lemma create_order_run env action stock_id quantity price
    odd_lot best_price_limit market_order order_cond w :
  (0 < quantity)%Q ->
  exists id,
    create_order env action stock_id quantity price
      odd_lot best_price_limit market_order order_cond w
    = (Return id,
       after_request env
         (Sdk.place_order
            (build_order (clock w) action stock_id quantity price
               odd_lot best_price_limit market_order order_cond)) w).
Proof.
  intros Hq. unfold create_order. apply leb_false in Hq. rewrite Hq.
  unfold bind; simpl.
  destruct (Sdk.success _); eexists; reflexivity.
Qed.

(** C8.  A call of [create_order] with a quantity that is not positive
    raises the validation error at once: the world is left as it was, so
    no order was built and no request reached the venue. *)
Theorem create_order_rejects_non_positive env action stock_id quantity price
    odd_lot best_price_limit market_order order_cond w :
  (quantity <= 0)%Q ->
  create_order env action stock_id quantity price
    odd_lot best_price_limit market_order order_cond w
  = (Raise ValueError, w).
Proof.
  intros Hq. unfold create_order. apply leb_true in Hq. rewrite Hq. reflexivity.
Qed.

Lemma resolve_price_cases action price best_price_limit market_order :
  resolve_price action price best_price_limit market_order =
  if best_price_limit
  then (None, match action with BUY => LimitDown | SELL => LimitUp end)
  else if market_order
       then (None, match action with BUY => LimitUp | SELL => LimitDown end)
       else (price, Limit).
Proof. destruct best_price_limit, market_order; reflexivity. Qed.

Lemma build_order_price now action stock_id quantity price
    odd_lot best_price_limit market_order order_cond :
  (FBOrder.price (build_order now action stock_id quantity price
                    odd_lot best_price_limit market_order order_cond),
   FBOrder.price_type (build_order now action stock_id quantity price
                         odd_lot best_price_limit market_order order_cond))
  = resolve_price action price best_price_limit market_order.
Proof.
  unfold build_order.
  destruct (resolve_price action price best_price_limit market_order).
  reflexivity.
Qed.

(** C5.  The order that [create_order] places has its price and price type
    resolved in two steps, [market_order] first and [best_price_limit]
    second: with [market_order] alone the price is cleared and the type is
    limit-up for Buy, limit-down for Sell; with [best_price_limit], alone or
    together with [market_order], the price is cleared and the type is
    limit-down for Buy, limit-up for Sell, so the second step wins when both
    flags are set; with neither the order is a plain limit order at the
    given price. *)
Theorem price_type_resolution env action stock_id quantity price
    odd_lot best_price_limit market_order order_cond w :
  (0 < quantity)%Q ->
  exists order,
    trace (snd (create_order env action stock_id quantity price
                  odd_lot best_price_limit market_order order_cond w))
    = trace w ++ [Request (clock w) (Sdk.place_order order)]
    /\ (market_order = true -> best_price_limit = false ->
        FBOrder.price order = None
        /\ FBOrder.price_type order
           = match action with BUY => LimitUp | SELL => LimitDown end)
    /\ (best_price_limit = true ->
        FBOrder.price order = None
        /\ FBOrder.price_type order
           = match action with BUY => LimitDown | SELL => LimitUp end)
    /\ (market_order = false -> best_price_limit = false ->
        FBOrder.price order = price /\ FBOrder.price_type order = Limit).
Proof.
  intros Hq.
  destruct (create_order_run env action stock_id quantity price
              odd_lot best_price_limit market_order order_cond w Hq) as [id Hrun].
  eexists. rewrite Hrun. simpl. split; [reflexivity|].
  pose proof (build_order_price (clock w) action stock_id quantity price
                odd_lot best_price_limit market_order order_cond) as Hp.
  rewrite resolve_price_cases in Hp.
  remember (build_order (clock w) action stock_id quantity price
              odd_lot best_price_limit market_order order_cond) as o.
  repeat split; intros; subst best_price_limit; try subst market_order;
    injection Hp as Hp1 Hp2; assumption.
Qed.

(** ** Session classification *)

Lemma time_ltb_hm a b h m :
  (0 <= b < 60)%Z -> (0 <= m < 60)%Z ->
  datetime.time_ltb (datetime.time_hm a b) (datetime.time_hm h m)
  = (a * 60 + b <? h * 60 + m)%Z.
Proof.
  intros Hb Hm. unfold datetime.time_ltb, datetime.time_hm.
  cbn [datetime.hour datetime.minute datetime.second datetime.microsecond].
  replace ((0 <? 0)%Z || (0 =? 0)%Z && (0 <? 0)%Z) with false by reflexivity.
  rewrite andb_false_r, orb_false_r.
  destruct (Z.ltb_spec a h), (Z.eqb_spec a h), (Z.ltb_spec b m),
    (Z.ltb_spec (a * 60 + b) (h * 60 + m));
    cbn [andb orb]; try reflexivity; exfalso; lia.
Qed.

Lemma minute_of_day (s : Z) :
  (0 <= (s / 60) mod 60 < 60)%Z
  /\ ((s / 3600) mod 24 * 60 + (s / 60) mod 60 = (s mod 86400) / 60)%Z.
Proof. Z.div_mod_to_equations. lia. Qed.

Lemma market_type_at_seconds odd_lot now :
  market_type_at odd_lot now = session_by_minute odd_lot (second_of_day now).
Proof.
  unfold market_type_at, session_by_minute, second_of_day, datetime.time_of.
  cbn [datetime.hour datetime.minute].
  destruct (minute_of_day (Qfloor now)) as [Hm Hhm].
  rewrite !time_ltb_hm by (assumption || lia).
  rewrite Hhm. clear Hm Hhm.
  set (s := (Qfloor now mod 86400)%Z).
  destruct (Z.ltb_spec (13 * 60 + 40) (s / 60)),
    (Z.ltb_spec (14 * 60 + 0) (s / 60)),
    (Z.ltb_spec (s / 60) (14 * 60 + 30)),
    (Z.leb_spec 49260 s), (Z.leb_spec 50460 s), (Z.ltb_spec s 52200);
    destruct odd_lot; cbn [andb orb negb]; try reflexivity;
    exfalso; Z.div_mod_to_equations; lia.
Qed.

(** C4, as the code has it.  The market type of a new order is a function
    of the odd-lot flag and the wall clock alone, and the clock is read to
    the minute: an odd-lot order goes to the post-market odd session when
    13:40 < hh:mm < 14:30, that is from 13:41:00 up to but not including
    14:30:00, and to the intraday odd session otherwise; a whole-lot order
    goes to the fixing session when 14:00 < hh:mm < 14:30, that is from
    14:01:00 up to but not including 14:30:00, and to the common session
    otherwise.  The minutes 13:40, 14:00 and 14:30 fall to the default. *)
Theorem session_read_to_the_minute now action stock_id quantity price
    odd_lot best_price_limit market_order order_cond :
  FBOrder.market_type
    (build_order now action stock_id quantity price
       odd_lot best_price_limit market_order order_cond)
  = session_by_minute odd_lot (second_of_day now).
Proof.
  unfold build_order.
  destruct (resolve_price action price best_price_limit market_order).
  apply market_type_at_seconds.
Qed.

(** C4, as stated, fails thirty seconds after 13:40: the instant lies
    strictly inside the window 13:40 to 14:30, yet a fractional order is
    routed to the intraday odd session. *)
Lemma session_open_window_fails_at_13_40_30 :
  (49200 < time_of_day 49230)%Q /\ (time_of_day 49230 < 52200)%Q
  /\ claimed_session true 49230 = Odd
  /\ FBOrder.market_type
       (build_order 49230 BUY (Py.Str "0056") 100 (Some 32%Q) true false false CASH)
     = IntradayOdd
  /\ FBOrder.market_type
       (build_order 49230 BUY (Py.Str "0056") 100 (Some 32%Q) true false false CASH)
     <> claimed_session true 49230.
Proof.
  repeat split; try reflexivity. discriminate.
Qed.

(** The cases of the repository's tests of the market type, and the three
    boundary instants. *)
Example market_type_regular_hours :
  market_type_at false 37800 = Common /\ market_type_at true 37800 = IntradayOdd.
Proof. split; reflexivity. Qed.

Example market_type_odd_lot_session : market_type_at true 49800 = Odd.
Proof. reflexivity. Qed.

Example market_type_fixing_session : market_type_at false 51300 = Fixing.
Proof. reflexivity. Qed.

Example market_type_boundaries :
  market_type_at true 49200 = IntradayOdd
  /\ market_type_at false 50400 = Common
  /\ market_type_at true 52200 = IntradayOdd
  /\ market_type_at false 52200 = Common.
Proof. repeat split; reflexivity. Qed.

(** ** [update_order] and [cancel_order] *)

Lemma update_order_run env order_id price quantity w :
  update_order env order_id price quantity w =
  let w1 := after_request env Sdk.get_order_results w in
  match fst (get_orders env w) !! order_id with
  | None => (tt, w1)
  | Some order =>
      let '(go_on, w2) := price_step env order price w1 in
      if go_on then quantity_step env order quantity w2 else (tt, w2)
  end.
Proof.
  unfold update_order, bind. rewrite get_orders_run. cbn [fst].
  destruct (_ !! order_id) as [order|]; [|reflexivity].
  destruct (price_step env order price _) as [[|] w2]; reflexivity.
Qed.

Lemma cancel_order_run env order_id w :
  cancel_order env order_id w =
  let w1 := after_request env Sdk.get_order_results w in
  match fst (get_orders env w) !! order_id with
  | None => (tt, w1)
  | Some order =>
      if Py.truthy (Py.getattr (Order.org_order order) "can_cancel" (Py.Bool true))
      then (tt, after_request env (Sdk.cancel_order (Order.org_order order)) w1)
      else (tt, w1)
  end.
Proof.
  unfold cancel_order, bind. rewrite get_orders_run. cbn [fst].
  destruct (_ !! order_id); [|reflexivity].
  destruct (Py.truthy _); reflexivity.
Qed.

(** C10.  When the order number is not a key of the dict that [get_orders]
    returns, [update_order] and [cancel_order] both return normally, and
    the only request either of them has sent is the read of the order
    list: no modify-price, modify-quantity, cancel or place-order request
    is issued. *)
Theorem unknown_order_is_no_op env order_id price quantity w :
  fst (get_orders env w) !! order_id = None ->
  update_order env order_id price quantity w
    = (tt, after_request env Sdk.get_order_results w)
  /\ cancel_order env order_id w
    = (tt, after_request env Sdk.get_order_results w)
  /\ requests (trace (after_request env Sdk.get_order_results w))
    = requests (trace w) ++ [Sdk.get_order_results].
Proof.
  intros Hno. rewrite update_order_run, cancel_order_run, Hno.
  repeat split. apply after_request_requests.
Qed.

Lemma update_quantity_run env order q w f :
  float env (Py.getattr (Order.org_order order) "filled_qty" (Py.Int 0)) = Some f ->
  update_quantity env order q w =
  (tt, after_request env
         (Sdk.modify_quantity (Order.org_order order)
            (native_qty
               (is_odd_market
                  (Py.getattr (Order.org_order order) "market_type" Py.None_)) q
             + Py.int f)) w).
Proof.
  intros Hf. unfold update_quantity. rewrite Hf. unfold native_qty.
  destruct (is_odd_market _); reflexivity.
Qed.

(** C1.  Whenever [update_order] carries a quantity change through on an
    existing order, the request it sends is a modify-quantity on the
    original record whose native quantity is the requested quantity in
    native units (the float product with 1000 for a whole-lot order, the
    quantity as it is for an odd-lot order, truncated to an integer) plus
    the native quantity already filled; with a non-zero fill that differs
    from the requested quantity alone. *)
Theorem quantity_change_sends_total env order_id price q w order f :
  fst (get_orders env w) !! order_id = Some order ->
  float env (Py.getattr (Order.org_order order) "filled_qty" (Py.Int 0)) = Some f ->
  let w1 := after_request env Sdk.get_order_results w in
  let w2 := snd (price_step env order price w1) in
  let odd_lot :=
    is_odd_market (Py.getattr (Order.org_order order) "market_type" Py.None_) in
  let requested := if odd_lot then Py.int q else Py.int (Py.mul64 q 1000) in
  fst (price_step env order price w1) = true ->
  update_order env order_id price (Some q) w
    = (tt, after_request env
             (Sdk.modify_quantity (Order.org_order order) (requested + Py.int f))
             w2)
  /\ (Py.int f <> 0 -> requested + Py.int f <> requested)%Z.
Proof.
  intros Hin Hf w1 w2 odd_lot requested Hgo.
  rewrite update_order_run, Hin. cbn zeta. fold w1.
  destruct (price_step env order price w1) as [go_on w2'] eqn:Hp.
  cbn [fst snd] in *. subst go_on w2. unfold quantity_step.
  rewrite (update_quantity_run env order q w2' f Hf).
  split; [reflexivity | lia].
Qed.

(** ** Price change on an odd-lot order *)

(** The remainder of an odd-lot order is below one board lot, and
    [create_order] reads an odd-lot quantity in shares: the quantity that
    [update_order] hands over, the remainder divided by 1000, truncates to
    zero. *)
Lemma odd_lot_remainder_truncates (qty : Q) :
  (0 < qty)%Q -> (qty < 1000)%Q -> native_qty true (qty / 1000) = 0%Z.
Proof.
  intros Hpos Hlt. unfold native_qty, Py.int.
  destruct qty as [n d]. unfold Qlt in *. simpl in *.
  apply Z.quot_small. rewrite Z.mul_1_r in *. split; [lia|].
  rewrite Pos2Z.inj_mul. lia.
Qed.

(** C3 at a failing input.  The price of an odd-lot order with 500 shares
    unfilled is changed: the original order is cancelled by a
    modify-quantity to zero and one new odd-lot order is placed at the new
    price, but for 0 shares, not for the 500 unfilled. *)
Theorem odd_lot_price_change_reissues_zero_shares :
  requests (trace (snd (update_order (obliging_venue [odd_lot_record])
                          "W0001" (Some (65 # 2)) None morning)))
  = [ Sdk.get_order_results;
      Sdk.modify_quantity odd_lot_record 0;
      Sdk.place_order
        {| FBOrder.buy_sell := Buy;
           FBOrder.symbol := Py.Str "0056";
           FBOrder.price := Some (65 # 2);
           FBOrder.quantity := 0;
           FBOrder.market_type := IntradayOdd;
           FBOrder.price_type := Limit;
           FBOrder.time_in_force := ROD;
           FBOrder.order_type := Stock |} ].
Proof. vm_compute. reflexivity. Qed.

Lemma update_price_odd_lot env order p w o f :
  is_odd_market (Py.getattr (Order.org_order order) "market_type" (Py.Str "")) = true ->
  float env (Py.getattr (Order.org_order order) "after_qty"
               (Py.getattr (Order.org_order order) "quantity" (Py.Int 0))) = Some o ->
  float env (Py.getattr (Order.org_order order) "filled_qty" (Py.Int 0)) = Some f ->
  let cancel := Sdk.modify_quantity (Order.org_order order) 0 in
  let w1 := after_request env cancel w in
  requests (trace (snd (update_price env order p w)))
  = requests (trace w) ++ cancel ::
      match Sdk.success (respond env (trace w) cancel) with
      | Some _ =>
          if Py.ltb 0 (o - f)
          then [Sdk.place_order
                  (build_order (clock w1) (Order.action order)
                     (Order.stock_id order) ((o - f) / 1000) (Some p)
                     true false false CASH)]
          else []
      | None => []
      end.
Proof.
  intros Hodd Ho Hf cancel w1. unfold update_price. rewrite Hodd, Ho, Hf.
  unfold bind. rewrite sdk_run. fold cancel. fold w1.
  destruct (Sdk.success (respond env (trace w) cancel)).
  - destruct (Py.ltb 0 (o - f)) eqn:Hpos.
    + assert (Hq : (0 < (o - f) / 1000)%Q).
      { apply ltb_true in Hpos. apply Qlt_shift_div_l; [reflexivity | lra]. }
      destruct (create_order_run env (Order.action order) (Order.stock_id order)
                  ((o - f) / 1000)%Q (Some p) true false false CASH w1 Hq)
        as [id Hrun].
      rewrite Hrun. cbn [snd]. unfold ret. cbn [snd].
      rewrite after_request_requests. subst w1.
      rewrite after_request_requests, <- app_assoc. reflexivity.
    + unfold ret. cbn [snd]. subst w1. apply after_request_requests.
  - unfold ret. cbn [snd]. subst w1. apply after_request_requests.
Qed.

(** ** Positions *)

(** With both balances positive the record yields two entries, the odd-lot
    one and the whole-lot one, in lots, negated for a short position. *)
Lemma inventory_entries_both env stock_no order_type today odd :
  stock_no <> "" -> (0 < today)%Z -> (0 < odd)%Z ->
  inventory_entries env (inventory_record stock_no order_type today odd)
  = [ {| Entry.stock_id := Py.Str stock_no;
         Entry.quantity := (inject_Z odd / 1000 * sign_of order_type)%Q;
         Entry.order_condition := condition_of order_type |};
      {| Entry.stock_id := Py.Str stock_no;
         Entry.quantity := (inject_Z today / 1000 * sign_of order_type)%Q;
         Entry.order_condition := condition_of order_type |} ].
Proof.
  intros Hs Ht Ho. unfold inventory_entries, inventory_record.
  cbn [Py.getattr Py.assoc String.eqb Ascii.eqb Bool.eqb Py.truthy Py.hasattr
       float Py.float negb andb].
  apply String.eqb_neq in Hs. rewrite Hs. cbn [negb].
  destruct (Z.eqb_spec today 0); [lia|]. destruct (Z.eqb_spec odd 0); [lia|].
  cbn [negb andb].
  assert (Hpos : forall z, (0 < z)%Z -> Py.ltb 0 (inject_Z z) = true).
  { intros z Hz. apply ltb_true. unfold Qlt. simpl. lia. }
  rewrite (Hpos today Ht), (Hpos odd Ho).
  destruct order_type; reflexivity.
Qed.

(** With a whole-lot balance of zero the record is skipped before its
    odd-lot balance is looked at. *)
Lemma zero_whole_lot_drops_odd_lot env stock_no order_type odd :
  inventory_entries env (inventory_record stock_no order_type 0 odd) = [].
Proof.
  unfold inventory_entries, inventory_record.
  cbn [Py.getattr Py.assoc String.eqb Ascii.eqb Bool.eqb Py.truthy negb].
  destruct (negb (stock_no =? "")%string); reflexivity.
Qed.

(** C7 at a failing input.  An instrument held only as 500 odd-lot shares,
    with a whole-lot balance of zero, yields no position entry at all,
    where a fractional entry of half a lot is due. *)
Theorem odd_lot_only_holding_is_dropped :
  fst (get_position (obliging_venue [inventory_record "2330" Stock 0 500]) morning)
  = []
  /\ fst (get_position (obliging_venue [inventory_record "2330" Stock 1000 500]) morning)
     = [ {| Entry.stock_id := Py.Str "2330";
            Entry.quantity := (500 / 1000 * 1)%Q;
            Entry.order_condition := CASH |};
         {| Entry.stock_id := Py.Str "2330";
            Entry.quantity := (1000 / 1000 * 1)%Q;
            Entry.order_condition := CASH |} ].
Proof. split; reflexivity. Qed.

(** ** Rate limit of [get_position] *)

Lemma get_position_trace env w :
  trace (snd (get_position env w)) = trace w ++ position_events env w.
Proof.
  unfold get_position, position_events, query_instant, bind.
  cbn [datetime_now get_timestamp].
  destruct (Py.ltb (clock w - timestamp_for_get_position w) 10).
  - unfold time_sleep. rewrite sdk_run. cbn [trace clock].
    destruct (respond env _ Sdk.inventories) as [|r].
    + unfold ret. cbn [snd]. rewrite after_request_trace. cbn [trace clock].
      rewrite <- app_assoc. reflexivity.
    + cbn [datetime_now set_timestamp].
      destruct (Sdk.success (Sdk.returns r)) as [inv|];
        [destruct (Py.iter inv)|]; unfold ret; cbn [snd trace];
        rewrite after_request_trace; cbn [trace clock];
        rewrite <- app_assoc; reflexivity.
  - unfold ret. rewrite sdk_run.
    destruct (respond env _ Sdk.inventories) as [|r].
    + reflexivity.
    + cbn [datetime_now set_timestamp].
      destruct (Sdk.success (Sdk.returns r)) as [inv|];
        [destruct (Py.iter inv)|]; reflexivity.
Qed.

Lemma query_instant_late env w :
  (forall tr d, (0 <= oversleep env tr d)%Q) ->
  (timestamp_for_get_position w + 10 <= query_instant env w)%Q.
Proof.
  intros Hover. unfold query_instant.
  destruct (Py.ltb (clock w - timestamp_for_get_position w) 10) eqn:Hlt.
  - pose proof (Hover (trace w) (10 - (clock w - timestamp_for_get_position w))%Q).
    lra.
  - apply ltb_false in Hlt. lra.
Qed.

(** When the query returned, the clock and the shared timestamp both read
    the instant of its return. *)
Lemma get_position_returned env w r :
  respond env (trace w ++ removelast (position_events env w)) Sdk.inventories
    = Sdk.returns r ->
  let w' := snd (get_position env w) in
  timestamp_for_get_position w' = query_return env w
  /\ clock w' = query_return env w.
Proof.
  unfold get_position, query_return, position_events, query_instant, bind.
  cbn [datetime_now get_timestamp].
  destruct (Py.ltb (clock w - timestamp_for_get_position w) 10).
  - unfold time_sleep. rewrite sdk_run. cbn [trace clock app removelast].
    intros Hr. rewrite Hr. cbn [datetime_now set_timestamp].
    destruct (Sdk.success (Sdk.returns r)) as [inv|];
      [destruct (Py.iter inv)|]; split; reflexivity.
  - unfold ret. rewrite sdk_run. cbn [app removelast]. rewrite app_nil_r.
    intros Hr. rewrite Hr. cbn [datetime_now set_timestamp].
    destruct (Sdk.success (Sdk.returns r)) as [inv|];
      [destruct (Py.iter inv)|]; split; reflexivity.
Qed.

(** C9.  Two calls of [get_position], the second starting [gap] seconds
    after the first returned, with [gap] under ten.  The shared timestamp
    the first call leaves is the instant at which its query returned: the
    instant it was sent plus the time the venue took.  The second call
    first sleeps, from its start, for the [10 - gap] seconds that remain,
    and only then sends its query, at an instant at least ten seconds after
    that timestamp. *)
Theorem second_position_query_waits env w0 r gap :
  (forall tr d, (0 <= oversleep env tr d)%Q) ->
  respond env (trace w0 ++ removelast (position_events env w0)) Sdk.inventories
    = Sdk.returns r ->
  (gap < 10)%Q ->
  let w1 := snd (get_position env w0) in
  let returned := query_return env w0 in
  let w2 := snd (get_position env (elapse gap w1)) in
  timestamp_for_get_position w1 = returned
  /\ clock w1 = returned
  /\ trace w1 = trace w0 ++ position_events env w0
  /\ exists seconds t2,
       trace w2
       = trace w1 ++ [Sleep (returned + gap) seconds; Request t2 Sdk.inventories]
       /\ (seconds == 10 - gap)%Q
       /\ (returned + 10 <= t2)%Q.
Proof.
  intros Hover Hr Hgap w1 returned w2.
  destruct (get_position_returned env w0 r Hr) as [Hts Hclock].
  fold w1 returned in Hts, Hclock.
  split; [exact Hts|]. split; [exact Hclock|].
  split; [apply get_position_trace|].
  exists (10 - (returned + gap - returned))%Q,
         (query_instant env (elapse gap w1)).
  split; [|split].
  - unfold w2. rewrite get_position_trace. unfold position_events, elapse.
    cbn [clock timestamp_for_get_position trace]. rewrite Hts, Hclock.
    assert (Hlt : Py.ltb (returned + gap - returned) 10 = true)
      by (apply ltb_true; lra).
    rewrite Hlt. reflexivity.
  - lra.
  - pose proof (query_instant_late env (elapse gap w1) Hover) as H.
    cbn [elapse timestamp_for_get_position] in H. rewrite Hts in H. exact H.
Qed.

(** ** Quote normalization *)

Lemma try_create_finlab_stock_inv env quote fallback stock :
  try_create_finlab_stock env quote fallback = Some stock ->
  exists sid o h l c bp bv ap av,
    quote_fields env quote fallback = (sid, (Some o, Some h, Some l, Some c))
    /\ best_level env (book_side quote "bids") = Some (bp, bv)
    /\ best_level env (book_side quote "asks") = Some (ap, av)
    /\ stock = {| FinlabStock.stock_id :=
                    if negb (Py.truthy sid) && Py.truthy fallback
                    then fallback else sid;
                  FinlabStock.open := o; FinlabStock.high := h;
                  FinlabStock.low := l; FinlabStock.close := c;
                  FinlabStock.bid_price := bp; FinlabStock.ask_price := ap;
                  FinlabStock.bid_volume := bv; FinlabStock.ask_volume := av |}.
Proof.
  unfold try_create_finlab_stock. intros H.
  destruct (quote_fields env quote fallback) as [sid [[[[o|] [h|]] [l|]] [c|]]];
    try discriminate.
  destruct (best_level env (book_side quote "bids")) as [[bp bv]|]; [|discriminate].
  destruct (best_level env (book_side quote "asks")) as [[ap av]|]; [|discriminate].
  injection H as <-. do 9 eexists. repeat split; reflexivity.
Qed.

Lemma getattr_absent quote name default :
  absent quote name -> Py.getattr quote name default = default.
Proof.
  destruct quote; try reflexivity. simpl. intros ->. reflexivity.
Qed.

Lemma best_level_falsy env side :
  Py.truthy side = false -> best_level env side = Some (0%Q, 0%Q).
Proof. intros H. unfold best_level. rewrite H. reflexivity. Qed.

(** A price looked up under its aliases, as [quote_fields] does. *)
Lemma price_absent env quote snake camel :
  absent quote snake -> absent quote camel ->
  float_or_0 env
    match quote with
    | Py.Dict d => Py.get d camel (Py.Int 0)
    | _ => Py.getattr quote snake (Py.getattr quote camel (Py.Int 0))
    end = Some 0%Q.
Proof.
  intros Hs Hc. destruct quote; try reflexivity.
  - simpl in Hc. unfold Py.get. rewrite Hc. reflexivity.
  - simpl in Hs, Hc. unfold Py.getattr. rewrite Hs, Hc. reflexivity.
Qed.

Lemma quote_fields_absent env quote fallback sid o h l c :
  quote_fields env quote fallback = (sid, (o, h, l, c)) ->
  (absent quote "open_price" -> absent quote "openPrice" -> o = Some 0%Q)
  /\ (absent quote "high_price" -> absent quote "highPrice" -> h = Some 0%Q)
  /\ (absent quote "low_price" -> absent quote "lowPrice" -> l = Some 0%Q)
  /\ (absent quote "close_price" -> absent quote "closePrice" ->
      absent quote "lastPrice" -> c = Some 0%Q)
  /\ (absent quote "symbol" ->
      sid = match quote with
            | Py.Dict _ => fallback
            | _ => Py.or_ fallback (Py.Str "")
            end).
Proof.
  intros H.
  pose proof (price_absent env quote "open_price" "openPrice") as Ho.
  pose proof (price_absent env quote "high_price" "highPrice") as Hh.
  pose proof (price_absent env quote "low_price" "lowPrice") as Hl.
  destruct quote; injection H as <- <- <- <- <-;
    repeat split; intros; auto;
    cbn [absent] in *; unfold Py.get, Py.getattr;
    repeat match goal with
           | H : Py.assoc _ _ = None |- _ => rewrite H; clear H
           end;
    reflexivity.
Qed.

Lemma fallback_id_kept (fallback : string) sid (is_dict : bool) :
  sid = (if is_dict then Py.Str fallback
         else Py.or_ (Py.Str fallback) (Py.Str "")) ->
  (if negb (Py.truthy sid) && Py.truthy (Py.Str fallback)
   then Py.Str fallback else sid) = Py.Str fallback.
Proof.
  intros ->. unfold Py.or_. cbn [Py.truthy].
  destruct (String.eqb_spec fallback "") as [->|Hne]; destruct is_dict;
    cbn [negb andb Py.truthy]; try reflexivity.
  - apply String.eqb_neq in Hne. rewrite Hne. reflexivity.
  - apply String.eqb_neq in Hne. rewrite Hne. reflexivity.
Qed.

Lemma quote_fields_reads env quote fallback :
  snd (quote_fields env quote fallback)
  = (float_or_0 env (price_read quote "open_price" "openPrice"),
     float_or_0 env (price_read quote "high_price" "highPrice"),
     float_or_0 env (price_read quote "low_price" "lowPrice"),
     float_or_0 env (close_read quote)).
Proof. destruct quote; reflexivity. Qed.

Lemma level_pair_read env first :
  (let '(p, s) :=
     match first with
     | Py.Dict d =>
         if Py.contains d "price"
         then (float_or_0 env (Py.get d "price" (Py.Int 0)),
               float_or_0 env (Py.get d "size" (Py.Int 0)))
         else (float_or_0 env (Py.getattr first "price" (Py.Int 0)),
               float_or_0 env (Py.getattr first "size" (Py.Int 0)))
     | _ => (float_or_0 env (Py.getattr first "price" (Py.Int 0)),
             float_or_0 env (Py.getattr first "size" (Py.Int 0)))
     end in
   match p, s with
   | Some p, Some s => Some (p, s)
   | _, _ => None
   end)
  = match float_or_0 env (level_read first "price"),
          float_or_0 env (level_read first "size") with
    | Some p, Some s => Some (p, s)
    | _, _ => None
    end.
Proof.
  unfold level_read. destruct first; try reflexivity.
  destruct (Py.contains d "price"); reflexivity.
Qed.

Lemma best_level_unreadable env side :
  best_level env side = None <-> unreadable env side.
Proof.
  unfold best_level, unreadable.
  destruct (Py.truthy side);
    [|split; [discriminate | intros [H _]; discriminate]].
  destruct (Py.len side) as [n|];
    [|split; [intros _; split; [reflexivity | exact I] | reflexivity]].
  destruct (Nat.ltb_spec 0 n) as [Hn|Hn].
  - destruct (Py.item0 side) as [first|];
      [|split; [intros _; split; [reflexivity | split; [exact Hn | exact I]]
               | reflexivity]].
    rewrite level_pair_read.
    destruct (float_or_0 env (level_read first "price")) as [p|];
      destruct (float_or_0 env (level_read first "size")) as [sz|]; split;
      try discriminate; try reflexivity.
    + intros (_ & _ & [H|H]); discriminate.
    + intros _. split; [reflexivity|]. split; [exact Hn|]. right. reflexivity.
    + intros _. split; [reflexivity|]. split; [exact Hn|]. left. reflexivity.
    + intros _. split; [reflexivity|]. split; [exact Hn|]. left. reflexivity.
  - split; [discriminate|]. intros (_ & H & _). lia.
Qed.

Lemma best_level_read env side p s first rest :
  best_level env side = Some (p, s) ->
  side = Py.List (first :: rest) ->
  float_or_0 env (level_read first "price") = Some p
  /\ float_or_0 env (level_read first "size") = Some s.
Proof.
  intros Hb ->. unfold best_level in Hb.
  cbn [Py.truthy Py.len Py.item0 length Nat.ltb Nat.leb] in Hb.
  rewrite level_pair_read in Hb.
  destruct (float_or_0 env (level_read first "price")); [|discriminate].
  destruct (float_or_0 env (level_read first "size")); [|discriminate].
  injection Hb as <- <-. split; reflexivity.
Qed.

Lemma try_create_finlab_stock_fails env quote fallback :
  try_create_finlab_stock env quote fallback = None ->
  float_or_0 env (price_read quote "open_price" "openPrice") = None
  \/ float_or_0 env (price_read quote "high_price" "highPrice") = None
  \/ float_or_0 env (price_read quote "low_price" "lowPrice") = None
  \/ float_or_0 env (close_read quote) = None
  \/ unreadable env (book_side quote "bids")
  \/ unreadable env (book_side quote "asks").
Proof.
  unfold try_create_finlab_stock. intros H.
  pose proof (quote_fields_reads env quote fallback) as Hq.
  destruct (quote_fields env quote fallback) as [sid [[[o h] l] c]].
  cbn [snd] in Hq. injection Hq as -> -> -> ->.
  destruct (float_or_0 env (price_read quote "open_price" "openPrice"));
    [|left; reflexivity].
  destruct (float_or_0 env (price_read quote "high_price" "highPrice"));
    [|right; left; reflexivity].
  destruct (float_or_0 env (price_read quote "low_price" "lowPrice"));
    [|right; right; left; reflexivity].
  destruct (float_or_0 env (close_read quote));
    [|right; right; right; left; reflexivity].
  destruct (best_level env (book_side quote "bids")) as [[bp bv]|] eqn:Hb;
    [|right; right; right; right; left; apply best_level_unreadable; exact Hb].
  destruct (best_level env (book_side quote "asks")) as [[ap av]|] eqn:Ha;
    [discriminate|].
  right; right; right; right; right. apply best_level_unreadable. exact Ha.
Qed.

(** C6, as the code has it.  [_create_finlab_stock] returns a quote for
    every record and never raises.  In that quote an OHLC field none of
    whose names is present is 0; the fallback id is the instrument id when
    the record has no symbol; an absent, empty or otherwise falsy bid (ask)
    list gives best-bid (best-ask) price 0 and size 0.  When one of the
    four prices the code reads does not convert to a number, or a side of
    the book is truthy and has no length, no first element, or a first
    element whose price or size does not convert, the quote is the
    all-zero quote under the fallback id.  Otherwise the four prices are
    the numbers read, and a non-empty bid (ask) list gives the price and
    the size read from its first element: its entries when it is a map
    with a price key, its attributes otherwise, each 0 when absent or
    empty. *)
Theorem quote_normalization env quote (fallback : string) :
  let bids := book_side quote "bids" in
  let asks := book_side quote "asks" in
  let open_price := float_or_0 env (price_read quote "open_price" "openPrice") in
  let high_price := float_or_0 env (price_read quote "high_price" "highPrice") in
  let low_price := float_or_0 env (price_read quote "low_price" "lowPrice") in
  let close_price := float_or_0 env (close_read quote) in
  exists stock,
    _create_finlab_stock env quote (Py.Str fallback) = Return stock
    /\ (absent quote "open_price" -> absent quote "openPrice" ->
        FinlabStock.open stock = 0%Q)
    /\ (absent quote "high_price" -> absent quote "highPrice" ->
        FinlabStock.high stock = 0%Q)
    /\ (absent quote "low_price" -> absent quote "lowPrice" ->
        FinlabStock.low stock = 0%Q)
    /\ (absent quote "close_price" -> absent quote "closePrice" ->
        absent quote "lastPrice" -> FinlabStock.close stock = 0%Q)
    /\ (absent quote "symbol" -> FinlabStock.stock_id stock = Py.Str fallback)
    /\ (Py.truthy bids = false ->
        FinlabStock.bid_price stock = 0%Q /\ FinlabStock.bid_volume stock = 0%Q)
    /\ (Py.truthy asks = false ->
        FinlabStock.ask_price stock = 0%Q /\ FinlabStock.ask_volume stock = 0%Q)
    /\ (open_price = None \/ high_price = None \/ low_price = None
        \/ close_price = None \/ unreadable env bids \/ unreadable env asks ->
        stock = zero_stock (Py.Str fallback))
    /\ (forall o h l c,
        open_price = Some o -> high_price = Some h ->
        low_price = Some l -> close_price = Some c ->
        ~ unreadable env bids -> ~ unreadable env asks ->
        FinlabStock.open stock = o /\ FinlabStock.high stock = h
        /\ FinlabStock.low stock = l /\ FinlabStock.close stock = c
        /\ (forall first rest,
            bids = Py.List (first :: rest) ->
            float_or_0 env (level_read first "price")
              = Some (FinlabStock.bid_price stock)
            /\ float_or_0 env (level_read first "size")
              = Some (FinlabStock.bid_volume stock))
        /\ (forall first rest,
            asks = Py.List (first :: rest) ->
            float_or_0 env (level_read first "price")
              = Some (FinlabStock.ask_price stock)
            /\ float_or_0 env (level_read first "size")
              = Some (FinlabStock.ask_volume stock))).
Proof.
  cbv zeta. unfold _create_finlab_stock.
  pose proof (quote_fields_reads env quote (Py.Str fallback)) as Hreads.
  destruct (try_create_finlab_stock env quote (Py.Str fallback)) as [stock|] eqn:Htry.
  - exists stock. split; [reflexivity|].
    destruct (try_create_finlab_stock_inv env quote (Py.Str fallback) stock Htry)
      as (sid & o & h & l & c & bp & bv & ap & av & Hq & Hb & Ha & ->).
    destruct (quote_fields_absent env quote (Py.Str fallback) _ _ _ _ _ Hq)
      as (Ho & Hh & Hl & Hc & Hs).
    rewrite Hq in Hreads. cbn [snd] in Hreads.
    injection Hreads as Hro Hrh Hrl Hrc.
    cbn [FinlabStock.open FinlabStock.high FinlabStock.low FinlabStock.close
         FinlabStock.stock_id FinlabStock.bid_price FinlabStock.bid_volume
         FinlabStock.ask_price FinlabStock.ask_volume].
    repeat match goal with |- _ /\ _ => split end.
    + intros H1 H2. specialize (Ho H1 H2). congruence.
    + intros H1 H2. specialize (Hh H1 H2). congruence.
    + intros H1 H2. specialize (Hl H1 H2). congruence.
    + intros H1 H2 H3. specialize (Hc H1 H2 H3). congruence.
    + intros H1.
      apply (fallback_id_kept fallback sid
               match quote with Py.Dict _ => true | _ => false end).
      rewrite (Hs H1). destruct quote; reflexivity.
    + intros Hf. rewrite (best_level_falsy env _ Hf) in Hb.
      injection Hb as <- <-. split; reflexivity.
    + intros Hf. rewrite (best_level_falsy env _ Hf) in Ha.
      injection Ha as <- <-. split; reflexivity.
    + intros [H|[H|[H|[H|[H|H]]]]]; try congruence; exfalso;
        apply best_level_unreadable in H; congruence.
    + intros o' h' l' c' Ho' Hh' Hl' Hc' _ _.
      repeat match goal with |- _ /\ _ => split end; try congruence.
      * intros first rest. apply (best_level_read env _ _ _ _ _ Hb).
      * intros first rest. apply (best_level_read env _ _ _ _ _ Ha).
  - exists (zero_stock (Py.Str fallback)). split; [reflexivity|].
    repeat match goal with |- _ /\ _ => split end;
      try (intros; reflexivity); try (intros; split; reflexivity).
    intros o h l c Ho Hh Hl Hc Hb Ha. exfalso.
    destruct (try_create_finlab_stock_fails env quote (Py.Str fallback) Htry)
      as [H|[H|[H|[H|[H|H]]]]]; try congruence; contradiction.
Qed.

(** C6, as stated, fails on two records that lack price fields and have a
    non-empty bid list.  In the first the closing price does not convert,
    so the quote is the all-zero one although the first bid has price 99.5
    and size 1000.  In the second the first bid is a map without a price,
    and its size of 5 is not reported. *)
Lemma first_level_not_always_reported :
  (absent quote_with_nested_close "openPrice"
   /\ exists stock,
        _create_finlab_stock (obliging_venue []) quote_with_nested_close
          (Py.Str "2330") = Return stock
        /\ FinlabStock.bid_price stock = 0%Q
        /\ ~ first_level_reported (obliging_venue [])
               (book_side quote_with_nested_close "bids")
               (FinlabStock.bid_price stock) (FinlabStock.bid_volume stock))
  /\ (absent quote_with_unpriced_bid "openPrice"
      /\ exists stock,
           _create_finlab_stock (obliging_venue []) quote_with_unpriced_bid
             (Py.Str "2330") = Return stock
           /\ FinlabStock.bid_volume stock = 0%Q
           /\ ~ first_level_reported (obliging_venue [])
                  (book_side quote_with_unpriced_bid "bids")
                  (FinlabStock.bid_price stock) (FinlabStock.bid_volume stock)).
Proof.
  split; (split; [reflexivity|]); eexists; (split; [reflexivity|]);
    (split; [reflexivity|]); intros H.
  - destruct (H _ _ eq_refl) as [Hp _]. discriminate Hp.
  - destruct (H _ _ eq_refl) as [_ Hs]. discriminate Hs.
Qed.

(** ** The theorems at concrete inputs *)

Lemma status_from_raw_triple_witness :
  _create_finlab_order (obliging_venue []) whole_lot_record = Some whole_lot_order
  /\ Py.getattr whole_lot_record "status" (Py.Int 0) = Py.Int 10
  /\ Order.status whole_lot_order = PARTIALLY_FILLED.
Proof.
  split; [reflexivity|]. split; [reflexivity|].
  apply (status_from_raw_triple (obliging_venue []) whole_lot_record
           whole_lot_order 10 300 1000); try reflexivity.
  repeat split; try reflexivity. discriminate.
Defined.

Lemma create_order_rejects_non_positive_witness :
  (-1 <= 0)%Q
  /\ create_order (obliging_venue []) BUY (Py.Str "0056") (-1) (Some 32%Q)
       false false false CASH morning
     = (Raise ValueError, morning).
Proof.
  split; [discriminate|].
  apply create_order_rejects_non_positive. discriminate.
Defined.

Lemma price_type_resolution_witness :
  (0 < 1)%Q
  /\ exists order,
       trace (snd (create_order (obliging_venue []) BUY (Py.Str "2330") 1
                     (Some 600%Q) false true true CASH morning))
       = [Request 36000 (Sdk.place_order order)]
       /\ FBOrder.price order = None
       /\ FBOrder.price_type order = LimitDown.
Proof.
  split; [reflexivity|].
  destruct (price_type_resolution (obliging_venue []) BUY (Py.Str "2330") 1
              (Some 600%Q) false true true CASH morning eq_refl)
    as (order & Htrace & _ & Hbest & _).
  exists order. split; [exact Htrace|]. apply Hbest. reflexivity.
Defined.

Lemma quantity_change_sends_total_witness :
  fst (get_orders (obliging_venue [whole_lot_record]) morning) !! "A0001"
    = Some whole_lot_order
  /\ float (obliging_venue [whole_lot_record])
       (Py.getattr (Order.org_order whole_lot_order) "filled_qty" (Py.Int 0))
     = Some 300%Q
  /\ requests (trace (snd (update_order (obliging_venue [whole_lot_record])
                             "A0001" None (Some (23 # 10)) morning)))
     = [Sdk.get_order_results; Sdk.modify_quantity whole_lot_record 2600].
Proof.
  split; [reflexivity|]. split; [reflexivity|].
  destruct (quantity_change_sends_total (obliging_venue [whole_lot_record])
              "A0001" None (23 # 10) morning whole_lot_order 300
              eq_refl eq_refl eq_refl) as [Hrun _].
  rewrite Hrun. vm_compute. reflexivity.
Defined.

Lemma unknown_order_is_no_op_witness :
  fst (get_orders (obliging_venue [whole_lot_record]) morning) !! "Z9999" = None
  /\ update_order (obliging_venue [whole_lot_record]) "Z9999"
       (Some 601%Q) (Some 2%Q) morning
     = (tt, after_request (obliging_venue [whole_lot_record])
              Sdk.get_order_results morning)
  /\ cancel_order (obliging_venue [whole_lot_record]) "Z9999" morning
     = (tt, after_request (obliging_venue [whole_lot_record])
              Sdk.get_order_results morning).
Proof.
  split; [reflexivity|].
  destruct (unknown_order_is_no_op (obliging_venue [whole_lot_record])
              "Z9999" (Some 601%Q) (Some 2%Q) morning eq_refl)
    as (Hu & Hc & _).
  split; assumption.
Defined.

Lemma second_position_query_waits_witness :
  let env := slow_venue [] in
  let w1 := snd (get_position env morning) in
  let w2 := snd (get_position env (elapse 5 w1)) in
  (forall tr d, (0 <= oversleep env tr d)%Q)
  /\ (5 < 10)%Q
  /\ query_return env morning = (36000 + 2)%Q
  /\ timestamp_for_get_position w1 = (36000 + 2)%Q
  /\ trace w1 = [Request 36000 Sdk.inventories]
  /\ exists seconds t2,
       trace w2
       = [Request 36000 Sdk.inventories;
          Sleep (36000 + 2 + 5) seconds; Request t2 Sdk.inventories]
       /\ (seconds == 5)%Q
       /\ (36012 <= t2)%Q.
Proof.
  intros env w1 w2.
  assert (Hover : forall tr d, (0 <= oversleep env tr d)%Q)
    by (intros tr d; discriminate).
  assert (Hgap : (5 < 10)%Q) by reflexivity.
  split; [exact Hover|]. split; [exact Hgap|]. split; [reflexivity|].
  destruct (second_position_query_waits env morning _ 5 Hover eq_refl Hgap)
    as (Hts & _ & Htr & seconds & t2 & Htr2 & Hs & Ht).
  split; [exact Hts|]. split; [exact Htr|].
  exists seconds, t2. split; [exact Htr2|]. split; [rewrite Hs; reflexivity|].
  change (36000 + 2 + 10 <= t2)%Q in Ht.
  eapply Qle_trans; [|exact Ht]. discriminate.
Defined.

Lemma quote_normalization_witness :
  (exists stock,
     _create_finlab_stock (obliging_venue []) example_quote (Py.Str "X")
     = Return stock
     /\ FinlabStock.open stock = 98%Q
     /\ FinlabStock.high stock = 0%Q
     /\ FinlabStock.close stock = 100%Q
     /\ FinlabStock.bid_price stock = (199 # 2)%Q
     /\ FinlabStock.bid_volume stock = 1000%Q
     /\ FinlabStock.ask_price stock = (201 # 2)%Q
     /\ FinlabStock.ask_volume stock = 1500%Q)
  /\ _create_finlab_stock (obliging_venue []) quote_with_bad_open (Py.Str "X")
     = Return (zero_stock (Py.Str "X")).
Proof.
  split.
  - destruct (quote_normalization (obliging_venue []) example_quote "X")
      as (stock & Hrun & _ & _ & _ & _ & _ & _ & _ & _ & Hread).
    exists stock. split; [exact Hrun|].
    destruct (Hread 98%Q 0%Q 0%Q 100%Q eq_refl eq_refl eq_refl eq_refl)
      as (Ho & Hh & _ & Hc & Hbid & Hask).
    + intros (_ & _ & [H|H]); discriminate H.
    + intros (_ & _ & [H|H]); discriminate H.
    + destruct (Hbid _ _ eq_refl) as [Hp Hs].
      destruct (Hask _ _ eq_refl) as [Hp' Hs'].
      change (Some (199 # 2) = Some (FinlabStock.bid_price stock)) in Hp.
      change (Some 1000%Q = Some (FinlabStock.bid_volume stock)) in Hs.
      change (Some (201 # 2) = Some (FinlabStock.ask_price stock)) in Hp'.
      change (Some 1500%Q = Some (FinlabStock.ask_volume stock)) in Hs'.
      repeat split; congruence.
  - destruct (quote_normalization (obliging_venue []) quote_with_bad_open "X")
      as (stock & Hrun & _ & _ & _ & _ & _ & _ & _ & Hfail & _).
    rewrite Hrun. f_equal. apply Hfail. left. reflexivity.
Defined.

(** * Further properties of the class *)

(** ** The dict of [get_orders] *)

Lemma create_finlab_order_ids env raw o :
  _create_finlab_order env raw = Some o ->
  Order.order_id o = Py.getattr raw "order_no" (Py.Str "")
  /\ Order.stock_id o = Py.getattr raw "stock_no" (Py.Str "")
  /\ Order.org_order o = raw.
Proof.
  unfold _create_finlab_order. intros H.
  destruct (float env (Py.or_ (Py.getattr raw "price" (Py.Int 0)) (Py.Int 0)));
    [|discriminate].
  destruct (float env (Py.or_ (Py.getattr raw "filled_qty" (Py.Int 0)) (Py.Int 0)));
    [|discriminate].
  destruct (float env (Py.or_ (Py.getattr raw "after_qty" (Py.Int 0)) (Py.Int 0)));
    [|discriminate].
  injection H as <-. repeat split; reflexivity.
Qed.

Lemma add_order_from_records env l raw (m : gmap string Order.t) :
  In raw l ->
  (forall k o, m !! k = Some o -> from_records env l k o) ->
  forall k o, add_order env m raw !! k = Some o -> from_records env l k o.
Proof.
  intros Hin Hm k o. unfold add_order.
  destruct (_create_finlab_order env raw) as [fo|] eqn:Hc; [|apply Hm].
  destruct (Order.order_id fo) eqn:Hid; try apply Hm.
  destruct (decide (s = k)) as [->|Hne].
  - rewrite lookup_insert_eq. intros [= <-].
    exists raw. repeat split; try assumption.
    destruct (create_finlab_order_ids env raw fo Hc) as (Hid' & _ & _).
    congruence.
  - rewrite lookup_insert_ne by assumption. apply Hm.
Qed.

Lemma fold_add_order_from_records env l :
  forall l' (m : gmap string Order.t),
    (forall raw, In raw l' -> In raw l) ->
    (forall k o, m !! k = Some o -> from_records env l k o) ->
    forall k o, fold_left (add_order env) l' m !! k = Some o -> from_records env l k o.
Proof.
  induction l' as [|raw l' IH]; intros m Hsub Hm k o; simpl.
  - apply Hm.
  - apply IH.
    + intros r Hr. apply Hsub. right. exact Hr.
    + apply add_order_from_records; [apply Hsub; left; reflexivity | exact Hm].
Qed.

Lemma get_orders_lookup_inv env w k o :
  fst (get_orders env w) !! k = Some o ->
  Order.order_id o = Py.Str k
  /\ Py.getattr (Order.org_order o) "order_no" (Py.Str "") = Py.Str k
  /\ _create_finlab_order env (Order.org_order o) = Some o
  /\ exists data l,
       Sdk.success (respond env (trace w) Sdk.get_order_results) = Some data
       /\ Py.iter data = Some l
       /\ In (Order.org_order o) l.
Proof.
  rewrite get_orders_run. cbn [fst]. unfold order_dict_of.
  destruct (Sdk.success (respond env (trace w) Sdk.get_order_results))
    as [data|] eqn:Hdata; [|rewrite lookup_empty; discriminate].
  destruct (Py.iter data) as [l|] eqn:Hl; [|rewrite lookup_empty; discriminate].
  intros Hk.
  destruct (fold_add_order_from_records env l l ∅ (fun _ H => H)
              (fun k' o' H => ltac:(rewrite lookup_empty in H; discriminate))
              k o Hk) as (raw & Hin & Hc & Hno).
  destruct (create_finlab_order_ids env raw o Hc) as (Hid & _ & Horg).
  rewrite Horg. split; [congruence|]. split; [exact Hno|]. split; [exact Hc|].
  exists data, l. split; [reflexivity|]. split; [exact Hl | exact Hin].
Qed.

(** X1.  Every entry of the dict that [get_orders] returns sits under its
    own order number and is the normal form of one of the records the
    venue sent, which it keeps as [org_order]. *)
Theorem get_orders_entries env w k o :
  fst (get_orders env w) !! k = Some o ->
  Order.order_id o = Py.Str k
  /\ Py.getattr (Order.org_order o) "order_no" (Py.Str "") = Py.Str k
  /\ _create_finlab_order env (Order.org_order o) = Some o
  /\ exists data l,
       Sdk.success (respond env (trace w) Sdk.get_order_results) = Some data
       /\ Py.iter data = Some l
       /\ In (Order.org_order o) l.
Proof. apply get_orders_lookup_inv. Qed.

Lemma add_order_skips env (m : gmap string Order.t) raw :
  _create_finlab_order env raw = None -> add_order env m raw = m.
Proof. intros H. unfold add_order. rewrite H. reflexivity. Qed.

(** X2.  A record that cannot be normalized is left out of the dict and
    does not disturb the records before and after it. *)
Theorem get_orders_skips_bad_record env w before bad after :
  respond env (trace w) Sdk.get_order_results
    = Sdk.returns (Some (Sdk.mk_result true (Py.List (before ++ bad :: after)))) ->
  _create_finlab_order env bad = None ->
  fst (get_orders env w) = fold_left (add_order env) (before ++ after) ∅.
Proof.
  intros Hr Hbad. rewrite get_orders_run. cbn [fst]. unfold order_dict_of.
  rewrite Hr. cbn [Sdk.success Sdk.is_success Sdk.data Py.iter].
  rewrite !fold_left_app. cbn [fold_left].
  rewrite (add_order_skips env _ bad Hbad). reflexivity.
Qed.

Lemma fold_add_order_other env k l :
  (forall r o', In r l -> _create_finlab_order env r = Some o' ->
                Py.getattr r "order_no" (Py.Str "") <> Py.Str k) ->
  forall m : gmap string Order.t,
    fold_left (add_order env) l m !! k = m !! k.
Proof.
  induction l as [|r l IH]; intros Hl m; cbn [fold_left]; [reflexivity|].
  rewrite IH by (intros r' o' Hin; apply Hl; right; exact Hin).
  unfold add_order.
  destruct (_create_finlab_order env r) as [fo|] eqn:Hc; [|reflexivity].
  destruct (create_finlab_order_ids env r fo Hc) as (Hid & _ & _).
  destruct (Order.order_id fo) eqn:Hfo; try reflexivity.
  apply lookup_insert_ne. intros ->.
  apply (Hl r fo (or_introl eq_refl) Hc). congruence.
Qed.

(** X3.  When several records carry the same order number, the dict holds
    the last of them that can be normalized, wherever it sits in the
    answer. *)
Theorem get_orders_last_record_wins env w before raw after o k :
  respond env (trace w) Sdk.get_order_results
    = Sdk.returns (Some (Sdk.mk_result true (Py.List (before ++ raw :: after)))) ->
  _create_finlab_order env raw = Some o ->
  Py.getattr raw "order_no" (Py.Str "") = Py.Str k ->
  (forall r o', In r after -> _create_finlab_order env r = Some o' ->
                Py.getattr r "order_no" (Py.Str "") <> Py.Str k) ->
  fst (get_orders env w) !! k = Some o.
Proof.
  intros Hr Hc Hno Hlater. rewrite get_orders_run. cbn [fst]. unfold order_dict_of.
  rewrite Hr. cbn [Sdk.success Sdk.is_success Sdk.data Py.iter].
  rewrite fold_left_app. cbn [fold_left].
  rewrite (fold_add_order_other env k after Hlater).
  unfold add_order. rewrite Hc.
  destruct (create_finlab_order_ids env raw o Hc) as (Hid & _ & _).
  rewrite Hid, Hno. apply lookup_insert_eq.
Qed.

(** ** Normalized orders *)

Lemma order_status_partial_inv status_code filled_qty after_qty :
  order_status status_code filled_qty after_qty = PARTIALLY_FILLED ->
  (0 < filled_qty)%Q /\ (filled_qty < after_qty)%Q.
Proof.
  unfold order_status.
  destruct (Py.ltb 0 filled_qty) eqn:Hpos; cbn [andb].
  - destruct (Py.ltb filled_qty after_qty) eqn:Hlt; cbn [andb].
    + intros _. split; apply ltb_true; assumption.
    + unfold status_of_code.
      repeat match goal with |- context [if ?c then _ else _] => destruct c end;
        discriminate.
  - unfold status_of_code.
    repeat match goal with |- context [if ?c then _ else _] => destruct c end;
      discriminate.
Qed.

(** X4.  An order that [_create_finlab_order] reports as partially filled
    has a filled quantity strictly between zero and its quantity. *)
Theorem partially_filled_is_strictly_between env raw o :
  _create_finlab_order env raw = Some o ->
  Order.status o = PARTIALLY_FILLED ->
  (0 < Order.filled_quantity o)%Q
  /\ (Order.filled_quantity o < Order.quantity o)%Q.
Proof.
  unfold _create_finlab_order. intros H.
  destruct (float env (Py.or_ (Py.getattr raw "price" (Py.Int 0)) (Py.Int 0)));
    [|discriminate].
  destruct (float env (Py.or_ (Py.getattr raw "filled_qty" (Py.Int 0)) (Py.Int 0)))
    as [f|]; [|discriminate].
  destruct (float env (Py.or_ (Py.getattr raw "after_qty" (Py.Int 0)) (Py.Int 0)))
    as [a|]; [|discriminate].
  injection H as <-. cbn [Order.status Order.filled_quantity Order.quantity].
  intros Hs. apply order_status_partial_inv in Hs. destruct Hs as [Hpos Hlt].
  destruct (is_odd_market (Py.getattr raw "market_type" Py.None_)).
  - split.
    + apply Qlt_shift_div_l; [reflexivity | lra].
    + apply Qlt_shift_div_l; [reflexivity|].
      unfold Qdiv. rewrite <- Qmult_assoc, (Qmult_comm (/ 1)), Qmult_inv_r by discriminate.
      lra.
  - split.
    + apply Qlt_shift_div_l; [reflexivity | lra].
    + apply Qlt_shift_div_l; [reflexivity|].
      unfold Qdiv. rewrite <- Qmult_assoc, (Qmult_comm (/ 1000)), Qmult_inv_r by discriminate.
      lra.
Qed.

Lemma nearest64_pos_whole n d z :
  Zpos n = (z * Zpos d)%Z -> (0 < z < 2 ^ 53)%Z ->
  (Py.nearest64_pos n d == inject_Z z)%Q.
Proof.
  intros Hn Hz. unfold Py.nearest64_pos.
  set (e0 := (Z.log2 (Zpos n) - Z.log2 (Zpos d))%Z).
  set (above := if (0 <=? e0)%Z then (Zpos d * 2 ^ e0 <=? Zpos n)%Z
                else (Zpos d <=? Zpos n * 2 ^ (- e0))%Z).
  set (e := if above then e0 else (e0 - 1)%Z).
  assert (He : (e <= 52)%Z).
  { assert (Hlz : (Z.log2 z <= 52)%Z).
    { assert (Z.log2 z < 53)%Z by (apply Z.log2_lt_pow2; lia). lia. }
    assert (He0 : (e0 <= Z.log2 z + 1)%Z).
    { unfold e0. rewrite Hn.
      pose proof (Z.log2_mul_above z (Zpos d) ltac:(lia) ltac:(lia)). lia. }
    unfold e. destruct above eqn:Ha; [|lia].
    destruct (Z.eq_dec e0 53) as [E|]; [|lia].
    exfalso. unfold above in Ha. rewrite E in Ha. cbn [Z.leb Z.compare] in Ha.
    apply Z.leb_le in Ha. rewrite Hn in Ha. nia. }
  clearbody e. clear above e0.
  set (shift := Z.max (e - 52) (-1074)).
  assert (Hs : (shift <= 0)%Z) by (unfold shift; lia).
  clearbody shift.
  destruct (Z.leb_spec 0 shift) as [H0|Hneg].
  - assert (shift = 0%Z) by lia. subst shift.
    change (2 ^ 0)%Z with 1%Z. rewrite !Z.mul_1_r, Hn.
    rewrite Z.div_mul, Z.mod_mul by lia.
    change (2 * 0)%Z with 0%Z.
    destruct (Z.ltb_spec 0 (Zpos d)); [|lia]. reflexivity.
  - set (k := (- shift)%Z). assert (Hk : (0 < k)%Z) by (unfold k; lia).
    clearbody k.
    assert (Hp : (0 < 2 ^ k)%Z) by (apply Z.pow_pos_nonneg; lia).
    rewrite Hn.
    replace (z * Zpos d * 2 ^ k)%Z with (z * 2 ^ k * Zpos d)%Z by ring.
    rewrite Z.div_mul, Z.mod_mul by lia.
    change (2 * 0)%Z with 0%Z.
    destruct (Z.ltb_spec 0 (Zpos d)); [|lia].
    unfold Qeq, inject_Z. cbn [Qnum Qden]. rewrite Z2Pos.id by lia. ring.
Qed.

Lemma round64_whole x z :
  (x == inject_Z z)%Q -> (0 <= z < 2 ^ 53)%Z -> (Py.round64 x == inject_Z z)%Q.
Proof.
  intros Hx Hz. unfold Qeq, inject_Z in Hx. cbn [Qnum Qden] in Hx.
  rewrite Z.mul_1_r in Hx. unfold Py.round64.
  destruct (Qnum x) as [|n|n] eqn:Hn.
  - assert (z = 0%Z) by nia. subst z. reflexivity.
  - apply nearest64_pos_whole; [exact Hx | nia].
  - exfalso. nia.
Qed.

Lemma int_whole x z : (x == inject_Z z)%Q -> Py.int x = z.
Proof.
  intros Hx. unfold Qeq, inject_Z in Hx. cbn [Qnum Qden] in Hx.
  rewrite Z.mul_1_r in Hx. unfold Py.int. rewrite Hx.
  apply Z.quot_mul. discriminate.
Qed.

Lemma mul64_whole x y a b :
  (x == inject_Z a)%Q -> (y == inject_Z b)%Q ->
  (0 <= a < 2 ^ 53)%Z -> (0 <= b < 2 ^ 53)%Z -> (0 <= a * b < 2 ^ 53)%Z ->
  (Py.mul64 x y == inject_Z (a * b))%Q.
Proof.
  intros Hx Hy Ha Hb Hab. unfold Py.mul64.
  apply round64_whole; [|exact Hab].
  rewrite (round64_whole x a Hx Ha), (round64_whole y b Hy Hb).
  rewrite inject_Z_mult. reflexivity.
Qed.

(** The float product at work: 2.3 lots are 2300 shares although the float
    nearest to 2.3 lies below it, and the 1.001 lots a whole-lot record of
    1001 shares is normalized to come back as 1000 shares. *)
Example float_product_cases :
  Py.int (Py.mul64 (23 # 10) 1000) = 2300%Z
  /\ native_qty false (inject_Z 1001 / 1000) = 1000%Z
  /\ native_qty false (inject_Z 3000 / 1000) = 3000%Z.
Proof. repeat split; vm_compute; reflexivity. Qed.

(** X5.  Round trip of the quantity: the quantity of a normalized order,
    given back to [create_order] or to the quantity part of
    [update_order] with the lot kind of the record, is the number of
    shares the record carried, for an odd-lot record and for a whole-lot
    record that carries a whole number of lots.  (A whole-lot record with
    a share count that is no multiple of 1000 may come back short, as
    1001 does above.) *)
Theorem normalized_quantity_round_trip env raw o (shares : Z) :
  _create_finlab_order env raw = Some o ->
  Py.getattr raw "after_qty" (Py.Int 0) = Py.Int shares ->
  (0 <= shares < 2 ^ 53)%Z ->
  is_odd_market (Py.getattr raw "market_type" Py.None_) = true
  \/ (exists lots, shares = (1000 * lots)%Z) ->
  native_qty (is_odd_market (Py.getattr raw "market_type" Py.None_))
    (Order.quantity o) = shares.
Proof.
  unfold _create_finlab_order. intros H Ha Hrange Hkind.
  destruct (float env (Py.or_ (Py.getattr raw "price" (Py.Int 0)) (Py.Int 0)));
    [|discriminate].
  destruct (float env (Py.or_ (Py.getattr raw "filled_qty" (Py.Int 0)) (Py.Int 0)))
    as [f|]; [|discriminate].
  rewrite Ha in H.
  assert (Hf : float env (Py.or_ (Py.Int shares) (Py.Int 0)) = Some (inject_Z shares)).
  { unfold Py.or_. cbn [Py.truthy]. destruct (Z.eqb_spec shares 0) as [->|];
      reflexivity. }
  rewrite Hf in H. injection H as <-. cbn [Order.quantity].
  destruct (is_odd_market (Py.getattr raw "market_type" Py.None_)) eqn:Hodd;
    unfold native_qty.
  - apply int_whole. field.
  - destruct Hkind as [Hk|[lots ->]]; [discriminate|].
    replace (1000 * lots)%Z with (lots * 1000)%Z in * by ring.
    apply int_whole. apply mul64_whole; try lia; try reflexivity.
    rewrite inject_Z_mult. field.
Qed.

(** ** New orders *)

Lemma market_type_at_lot_kind odd_lot now :
  is_odd_market (Py.EMarket (market_type_at odd_lot now)) = odd_lot.
Proof.
  unfold market_type_at.
  destruct odd_lot; cbn [negb andb];
    rewrite ?andb_false_r, ?andb_true_r;
    repeat match goal with
           | |- context [if ?c then _ else _] => destruct c
           end;
    reflexivity.
Qed.

(** X6.  The market type [create_order] picks belongs to the odd-lot
    family exactly when the order was asked as an odd lot, at every
    instant: what [update_order] later takes for an odd-lot order is what
    was placed as one.  The emerging-market types are never picked. *)
Theorem placed_market_type_keeps_lot_kind now action stock_id quantity price
    odd_lot best_price_limit market_order order_cond :
  let market_type :=
    FBOrder.market_type
      (build_order now action stock_id quantity price
         odd_lot best_price_limit market_order order_cond) in
  is_odd_market (Py.EMarket market_type) = odd_lot
  /\ market_type <> Emg /\ market_type <> EmgOdd.
Proof.
  cbv zeta. unfold build_order.
  destruct (resolve_price action price best_price_limit market_order).
  cbn [FBOrder.market_type]. unfold market_type_at.
  destruct odd_lot; cbn [negb andb];
    rewrite ?andb_false_r, ?andb_true_r;
    repeat match goal with
           | |- context [if ?c then _ else _] => destruct c
           end;
    repeat split; try reflexivity; discriminate.
Qed.

(** X7.  The trading condition survives the trip to the venue and back:
    the order type [create_order] sends for a condition is mapped back to
    that condition by [_map_order_condition], except for the long
    day-trade condition, which is sent as a cash order. *)
Theorem order_condition_round_trip now action stock_id quantity price
    odd_lot best_price_limit market_order order_cond raw :
  Py.getattr raw "order_type" Py.None_
    = Py.EOrderType
        (FBOrder.order_type
           (build_order now action stock_id quantity price
              odd_lot best_price_limit market_order order_cond)) ->
  _map_order_condition raw
  = match order_cond with DAY_TRADING_LONG => CASH | c => c end.
Proof.
  unfold build_order, _map_order_condition.
  destruct (resolve_price action price best_price_limit market_order).
  cbn [FBOrder.order_type]. intros H. rewrite H.
  destruct order_cond; reflexivity.
Qed.

(** ** Changing and cancelling an order that exists *)

(** X9.  A change of both price and quantity on an order outside the
    odd-lot family sends, after the read of the order list, a modify-price
    and then a modify-quantity on the original record, for the float
    product of the quantity with 1000 truncated plus the shares filled,
    and nothing else;
    the quantity change goes out whatever the venue answered to the price
    change, and no order is placed or cancelled. *)
Theorem whole_lot_update_sends_two_modifications env order_id p q w order f :
  fst (get_orders env w) !! order_id = Some order ->
  is_odd_market (Py.getattr (Order.org_order order) "market_type" (Py.Str ""))
    = false ->
  float env (Py.getattr (Order.org_order order) "filled_qty" (Py.Int 0)) = Some f ->
  requests (trace (snd (update_order env order_id (Some p) (Some q) w)))
  = requests (trace w)
    ++ [Sdk.get_order_results;
        Sdk.modify_price (Order.org_order order) p;
        Sdk.modify_quantity (Order.org_order order)
          (Py.int (Py.mul64 q 1000) + Py.int f)].
Proof.
  intros Hin Hodd Hf. rewrite update_order_run, Hin. cbn zeta.
  unfold price_step, update_price. rewrite Hodd. unfold bind.
  rewrite sdk_run. unfold ret. unfold quantity_step.
  rewrite (update_quantity_run env order q _ f Hf). cbn [snd].
  assert (Hodd' : is_odd_market
                    (Py.getattr (Order.org_order order) "market_type" Py.None_)
                  = false).
  { clear -Hodd. unfold Py.getattr in *.
    destruct (Order.org_order order); try reflexivity.
    destruct (Py.assoc "market_type" attrs); [exact Hodd | reflexivity]. }
  rewrite Hodd'. unfold native_qty.
  rewrite !after_request_requests, <- !app_assoc. reflexivity.
Qed.

(** X10.  When the venue does not accept the modify-quantity to zero that
    starts a price change on an odd-lot order, [update_order] stops there:
    no new order is placed and a quantity change asked in the same call is
    not sent. *)
Theorem odd_lot_update_stops_when_cancel_fails env order_id p quantity w order o f :
  fst (get_orders env w) !! order_id = Some order ->
  is_odd_market (Py.getattr (Order.org_order order) "market_type" (Py.Str ""))
    = true ->
  float env (Py.getattr (Order.org_order order) "after_qty"
               (Py.getattr (Order.org_order order) "quantity" (Py.Int 0))) = Some o ->
  float env (Py.getattr (Order.org_order order) "filled_qty" (Py.Int 0)) = Some f ->
  Sdk.success
    (respond env (trace (after_request env Sdk.get_order_results w))
       (Sdk.modify_quantity (Order.org_order order) 0)) = None ->
  requests (trace (snd (update_order env order_id (Some p) quantity w)))
  = requests (trace w)
    ++ [Sdk.get_order_results; Sdk.modify_quantity (Order.org_order order) 0].
Proof.
  intros Hin Hodd Ho Hf Hfail. rewrite update_order_run, Hin. cbn zeta.
  unfold price_step, update_price. rewrite Hodd, Ho, Hf. unfold bind.
  rewrite sdk_run, Hfail. unfold ret. cbn [snd].
  rewrite !after_request_requests, <- !app_assoc. reflexivity.
Qed.

(** X11.  [cancel_order] on an order that exists sends its cancel request
    on the original record, whose order number is the one asked for, and
    it sends none when the record says it cannot be cancelled. *)
Theorem cancel_order_targets_the_record env order_id w order :
  fst (get_orders env w) !! order_id = Some order ->
  let record := Order.org_order order in
  Py.getattr record "order_no" (Py.Str "") = Py.Str order_id
  /\ requests (trace (snd (cancel_order env order_id w)))
     = requests (trace w)
       ++ Sdk.get_order_results
          :: (if Py.truthy (Py.getattr record "can_cancel" (Py.Bool true))
              then [Sdk.cancel_order record] else []).
Proof.
  intros Hin record.
  destruct (get_orders_lookup_inv env w order_id order Hin) as (_ & Hno & _).
  split; [exact Hno|].
  rewrite cancel_order_run, Hin. cbn zeta. fold record.
  destruct (Py.truthy (Py.getattr record "can_cancel" (Py.Bool true))); cbn [snd].
  - rewrite !after_request_requests, <- app_assoc. reflexivity.
  - apply after_request_requests.
Qed.

(** ** Positions, again *)

Lemma inventory_entries_signed env inventory e :
  In e (inventory_entries env inventory) ->
  Py.truthy (Entry.stock_id e) = true
  /\ (Entry.order_condition e = SHORT_SELLING -> (Entry.quantity e < 0)%Q)
  /\ (Entry.order_condition e <> SHORT_SELLING -> (0 < Entry.quantity e)%Q).
Proof.
  unfold inventory_entries.
  destruct (Py.truthy (Py.getattr inventory "stock_no" (Py.Str ""))) eqn:Hs;
    cbn [negb]; [|intros []].
  destruct (Py.truthy (Py.getattr inventory "today_qty" (Py.Int 0)));
    cbn [negb]; [|intros []].
  destruct (float env (Py.getattr inventory "today_qty" (Py.Int 0))) as [today|];
    [|intros []].
  set (cond := match Py.getattr inventory "order_type" Py.None_ with
               | Py.EOrderType Margin => MARGIN_TRADING
               | Py.EOrderType Short => SHORT_SELLING
               | Py.EOrderType DayTrade => DAY_TRADING_SHORT
               | _ => CASH
               end).
  assert (Hsign : forall x : Q, (0 < x)%Q ->
            (cond = SHORT_SELLING ->
             (x / 1000 * (if OrderCondition_eqb cond SHORT_SELLING
                          then (-1) else 1) < 0)%Q)
            /\ (cond <> SHORT_SELLING ->
                (0 < x / 1000 * (if OrderCondition_eqb cond SHORT_SELLING
                                 then (-1) else 1))%Q)).
  { intros x Hx.
    assert (Hd : (0 < x / 1000)%Q) by (apply Qlt_shift_div_l; [reflexivity | lra]).
    destruct cond; cbn [OrderCondition_eqb]; split; intros Hc;
      try discriminate; try (exfalso; apply Hc; reflexivity); lra. }
  assert (Hwhole : In e (if Py.ltb 0 today
                         then [ {| Entry.stock_id := Py.getattr inventory "stock_no" (Py.Str "");
                                   Entry.quantity :=
                                     (today / 1000 *
                                      (if OrderCondition_eqb cond SHORT_SELLING
                                       then (-1) else 1))%Q;
                                   Entry.order_condition := cond |} ]
                         else []) ->
          Py.truthy (Entry.stock_id e) = true
          /\ (Entry.order_condition e = SHORT_SELLING -> (Entry.quantity e < 0)%Q)
          /\ (Entry.order_condition e <> SHORT_SELLING -> (0 < Entry.quantity e)%Q)).
  { destruct (Py.ltb 0 today) eqn:Ht; [|intros []].
    intros [<-|[]]. apply ltb_true in Ht. split; [exact Hs|]. apply Hsign, Ht. }
  destruct (Py.truthy (Py.getattr inventory "odd" Py.None_)
            && Py.hasattr (Py.getattr inventory "odd" Py.None_) "today_qty"
            && Py.truthy (Py.getattr (Py.getattr inventory "odd" Py.None_)
                            "today_qty" Py.None_)); [|exact Hwhole].
  destruct (float env (Py.getattr (Py.getattr inventory "odd" Py.None_)
                         "today_qty" Py.None_)) as [odd|]; [|intros []].
  intros Hin. apply in_app_or in Hin. destruct Hin as [Hin|Hin]; [|auto].
  destruct (Py.ltb 0 odd) eqn:Ho; [|destruct Hin].
  destruct Hin as [<-|[]]. apply ltb_true in Ho. split; [exact Hs|]. apply Hsign, Ho.
Qed.

(** X12.  Every entry [get_position] reports has an instrument id and a
    quantity that is not zero: negative when the holding is a short
    sale, positive otherwise. *)
Theorem positions_are_signed env w e :
  In e (fst (get_position env w)) ->
  Py.truthy (Entry.stock_id e) = true
  /\ (Entry.order_condition e = SHORT_SELLING -> (Entry.quantity e < 0)%Q)
  /\ (Entry.order_condition e <> SHORT_SELLING -> (0 < Entry.quantity e)%Q).
Proof.
  assert (Hflat : forall l, In e (flat_map (inventory_entries env) l) ->
            Py.truthy (Entry.stock_id e) = true
            /\ (Entry.order_condition e = SHORT_SELLING -> (Entry.quantity e < 0)%Q)
            /\ (Entry.order_condition e <> SHORT_SELLING -> (0 < Entry.quantity e)%Q)).
  { intros l Hin. apply in_flat_map in Hin. destruct Hin as (inv & _ & Hin).
    exact (inventory_entries_signed env inv e Hin). }
  unfold get_position, bind. cbn [datetime_now get_timestamp].
  destruct (Py.ltb (clock w - timestamp_for_get_position w) 10).
  - unfold time_sleep. rewrite sdk_run.
    destruct (respond env _ Sdk.inventories) as [|r]; [intros []|].
    cbn [datetime_now set_timestamp].
    destruct (Sdk.success (Sdk.returns r)) as [inv|]; [|intros []].
    destruct (Py.iter inv); [apply Hflat | intros []].
  - unfold ret at 1. rewrite sdk_run.
    destruct (respond env _ Sdk.inventories) as [|r]; [intros []|].
    cbn [datetime_now set_timestamp].
    destruct (Sdk.success (Sdk.returns r)) as [inv|]; [|intros []].
    destruct (Py.iter inv); [apply Hflat | intros []].
Qed.

(** X14.  A call of [get_position] that starts ten seconds or more after
    the recorded timestamp does not sleep: its query goes out at once. *)
Theorem position_query_goes_at_once env w :
  (10 <= clock w - timestamp_for_get_position w)%Q ->
  trace (snd (get_position env w))
  = trace w ++ [Request (clock w) Sdk.inventories].
Proof.
  intros Hlate. rewrite get_position_trace.
  unfold position_events, query_instant.
  apply ltb_false in Hlate. rewrite Hlate. reflexivity.
Qed.

(** X13.  [get_position] moves the shared timestamp to the instant its
    query returned, also when the venue reports a failure, in which case
    the result is empty; when the query raised, the result is empty and the
    timestamp stays where it was. *)
Theorem position_timestamp_follows_the_query env w :
  let total_seconds := (clock w - timestamp_for_get_position w)%Q in
  let before :=
    trace w ++ (if Py.ltb total_seconds 10
                then [Sleep (clock w) (10 - total_seconds)] else []) in
  let after := snd (get_position env w) in
  match respond env before Sdk.inventories with
  | Sdk.raises =>
      timestamp_for_get_position after = timestamp_for_get_position w
      /\ fst (get_position env w) = []
  | Sdk.returns r =>
      timestamp_for_get_position after = clock after
      /\ (Sdk.success (Sdk.returns r) = None -> fst (get_position env w) = [])
  end.
Proof.
  cbv zeta. unfold get_position, bind. cbn [datetime_now get_timestamp].
  destruct (Py.ltb (clock w - timestamp_for_get_position w) 10).
  - unfold time_sleep. rewrite sdk_run. cbn [trace clock].
    destruct (respond env _ Sdk.inventories) as [|r].
    + split; reflexivity.
    + cbn [datetime_now set_timestamp].
      destruct (Sdk.success (Sdk.returns r)) as [inv|];
        [destruct (Py.iter inv)|]; split; try reflexivity; discriminate.
  - unfold ret. rewrite sdk_run. rewrite app_nil_r.
    destruct (respond env _ Sdk.inventories) as [|r].
    + split; reflexivity.
    + cbn [datetime_now set_timestamp].
      destruct (Sdk.success (Sdk.returns r)) as [inv|];
        [destruct (Py.iter inv)|]; split; try reflexivity; discriminate.
Qed.

(** ** Cash, settlement and net value *)

Lemma get_cash_trace to_float answer tr :
  snd (get_cash to_float answer tr) = tr ++ [Accounting.bank_remain].
Proof.
  unfold get_cash, Accounting.bind, ask.
  destruct (Accounting.success_with_data _) as [data|]; [|reflexivity].
  destruct (Py.getattr data "available_balance" (Py.Int 0));
    try reflexivity;
    match goal with |- context [Py.float to_float ?v] =>
      destruct (Py.float to_float v); reflexivity end.
Qed.

(** X15.  [get_cash] sends one request and never raises; when the request
    raised, failed or brought no data, the result is 0. *)
Theorem get_cash_degrades_to_zero to_float answer tr :
  exists cash,
    get_cash to_float answer tr = (cash, tr ++ [Accounting.bank_remain])
    /\ (Accounting.success_with_data (answer tr Accounting.bank_remain) = None ->
        cash = 0%Q).
Proof.
  exists (fst (get_cash to_float answer tr)). split.
  - pose proof (get_cash_trace to_float answer tr) as Ht.
    destruct (get_cash to_float answer tr) as [cash tr']. cbn [fst snd] in *.
    rewrite Ht. reflexivity.
  - intros Hfail. unfold get_cash, Accounting.bind, ask. rewrite Hfail. reflexivity.
Qed.

Lemma remove_commas_app s1 s2 :
  Accounting.remove_commas (s1 ++ s2)
  = (Accounting.remove_commas s1 ++ Accounting.remove_commas s2)%string.
Proof.
  induction s1 as [|c s1 IH]; simpl; [reflexivity|].
  destruct (Ascii.eqb c ","); simpl; rewrite IH; reflexivity.
Qed.

(** X16.  A balance that comes as a string is read with its commas
    dropped: a thousands separator anywhere in it changes nothing. *)
Theorem get_cash_ignores_commas to_float answer tr data s1 s2 balance :
  answer tr Accounting.bank_remain
    = Sdk.returns (Some (Sdk.mk_result true data)) ->
  Py.truthy data = true ->
  Py.getattr data "available_balance" (Py.Int 0)
    = Py.Str (s1 ++ "," ++ s2)%string ->
  to_float (Accounting.remove_commas (s1 ++ s2)) = Some balance ->
  fst (get_cash to_float answer tr) = balance.
Proof.
  intros Hr Hd Hb Hf. unfold get_cash, Accounting.bind, ask.
  rewrite Hr. unfold Accounting.success_with_data.
  cbn [Sdk.success Sdk.is_success Sdk.data]. rewrite Hd, Hb.
  cbn [Py.float].
  rewrite remove_commas_app in Hf |- *.
  rewrite (remove_commas_app "," s2). cbn [Accounting.remove_commas Ascii.eqb Bool.eqb].
  change ("" ++ Accounting.remove_commas s2)%string
    with (Accounting.remove_commas s2).
  rewrite Hf. reflexivity.
Qed.

Lemma add_detail_counted to_float total detail :
  (add_detail to_float total detail == total + counted_amount to_float detail)%Q.
Proof.
  unfold add_detail, counted_amount.
  destruct (Py.truthy (Py.getattr detail "settlement_date" Py.None_));
    cbn [negb]; [|lra].
  destruct (Py.getattr detail "total_settlement_amount" Py.None_);
    try lra;
    match goal with |- context [Py.float to_float ?v] =>
      destruct (Py.float to_float v); lra end.
Qed.

Lemma fold_add_detail_sum to_float l :
  forall total,
    (fold_left (add_detail to_float) l total
     == total + Qsum (map (counted_amount to_float) l))%Q.
Proof.
  induction l as [|d l IH]; intros total; cbn [fold_left map Qsum fold_right].
  - lra.
  - rewrite IH. pose proof (add_detail_counted to_float total d) as Hd.
    fold (Qsum (map (counted_amount to_float) l)). lra.
Qed.

Lemma add_window_details to_float total r l :
  details_of r l ->
  add_window to_float total r = fold_left (add_detail to_float) l total.
Proof.
  intros (data & Hs & Hh & Hg & Hne). unfold add_window.
  rewrite Hs, Hh, Hg. destruct l; [contradiction|]. reflexivity.
Qed.

(** X17.  [get_settlement] always asks for the two windows, three days
    and same day, in that order; when both answers carry details the
    result is the total over the details of the first window followed by
    those of the second, each detail counted as often as it appears, where
    a detail counts for its total settlement amount if it has a settlement
    date and an amount that converts, and for nothing otherwise. *)
Theorem get_settlement_sums_both_windows to_float answer tr l3 l0 :
  let asked3 := Accounting.query_settlement "3d" in
  let asked0 := Accounting.query_settlement "0d" in
  details_of (answer tr asked3) l3 ->
  details_of (answer (tr ++ [asked3]) asked0) l0 ->
  snd (get_settlement to_float answer tr) = tr ++ [asked3; asked0]
  /\ (fst (get_settlement to_float answer tr)
      == Qsum (map (counted_amount to_float) (l3 ++ l0)))%Q.
Proof.
  intros asked3 asked0 H3 H0. unfold get_settlement, Accounting.bind, ask.
  cbn [fst snd Accounting.ret]. split.
  - rewrite <- app_assoc. reflexivity.
  - fold asked3. fold asked0.
    rewrite (add_window_details to_float _ _ l3 H3).
    rewrite (add_window_details to_float _ _ l0 H0).
    rewrite <- fold_left_app, fold_add_detail_sum. lra.
Qed.

Lemma add_window_fails to_float total r :
  Accounting.success_with_data r = None -> add_window to_float total r = total.
Proof. intros H. unfold add_window. rewrite H. reflexivity. Qed.

(** X18.  A window whose query raised, failed or brought no data adds
    nothing and does not stop the other window: with the three-day query
    lost the result is the total of the same-day details alone, and with
    both lost it is 0. *)
Theorem get_settlement_survives_a_lost_window to_float answer tr :
  let asked3 := Accounting.query_settlement "3d" in
  let asked0 := Accounting.query_settlement "0d" in
  Accounting.success_with_data (answer tr asked3) = None ->
  (forall l0,
      details_of (answer (tr ++ [asked3]) asked0) l0 ->
      (fst (get_settlement to_float answer tr)
       == Qsum (map (counted_amount to_float) l0))%Q)
  /\ (Accounting.success_with_data (answer (tr ++ [asked3]) asked0) = None ->
      fst (get_settlement to_float answer tr) = 0%Q).
Proof.
  intros asked3 asked0 H3. unfold get_settlement, Accounting.bind, ask.
  cbn [fst snd Accounting.ret]. fold asked3. fold asked0.
  rewrite (add_window_fails to_float _ _ H3). split.
  - intros l0 H0. rewrite (add_window_details to_float _ _ l0 H0).
    rewrite fold_add_detail_sum. lra.
  - intros H0. rewrite (add_window_fails to_float _ _ H0). reflexivity.
Qed.

Lemma get_settlement_trace to_float answer tr :
  snd (get_settlement to_float answer tr)
  = tr ++ [Accounting.query_settlement "3d"; Accounting.query_settlement "0d"].
Proof.
  unfold get_settlement, Accounting.bind, ask. cbn [snd Accounting.ret].
  rewrite <- app_assoc. reflexivity.
Qed.

Lemma get_total_balance_run to_float answer tr :
  let cash := fst (get_cash to_float answer tr) in
  let settlements :=
    fst (get_settlement to_float answer (tr ++ [Accounting.bank_remain])) in
  let tr2 := before_inventories tr in
  get_total_balance to_float answer tr
  = (match Sdk.success (answer tr2 Accounting.inventories) with
     | None => (cash + settlements)%Q
     | Some data =>
         match Py.iter data with
         | None => (cash + settlements)%Q
         | Some inventories =>
             total_balance
               (fold_left (add_inventory to_float) inventories Accounting.no_sums)
               cash settlements
         end
     end, tr2 ++ [Accounting.inventories]).
Proof.
  cbv zeta. unfold get_total_balance, Accounting.bind.
  pose proof (get_cash_trace to_float answer tr) as Hc.
  destruct (get_cash to_float answer tr) as [cash tr1]. cbn [fst snd] in *.
  subst tr1.
  pose proof (get_settlement_trace to_float answer (tr ++ [Accounting.bank_remain]))
    as Hs.
  destruct (get_settlement to_float answer (tr ++ [Accounting.bank_remain]))
    as [settlements tr2]. cbn [fst snd] in *. subst tr2.
  unfold ask, before_inventories.
  destruct (Sdk.success _) as [data|]; [|reflexivity].
  destruct (Py.iter data); reflexivity.
Qed.

(** X19.  [get_total_balance] sends four requests, for the cash, the two
    settlement windows and the inventories, whatever the answers; when the
    inventories cannot be had, because the query raised or failed or its
    data cannot be walked through, the result is cash plus settlement. *)
Theorem total_balance_falls_back_to_cash to_float answer tr :
  let cash := fst (get_cash to_float answer tr) in
  let settlements :=
    fst (get_settlement to_float answer (tr ++ [Accounting.bank_remain])) in
  let inventories_answer :=
    answer (before_inventories tr) Accounting.inventories in
  snd (get_total_balance to_float answer tr)
    = tr ++ [Accounting.bank_remain; Accounting.query_settlement "3d";
             Accounting.query_settlement "0d"; Accounting.inventories]
  /\ (Sdk.success inventories_answer = None ->
      fst (get_total_balance to_float answer tr) = (cash + settlements)%Q)
  /\ (forall data,
        Sdk.success inventories_answer = Some data -> Py.iter data = None ->
        fst (get_total_balance to_float answer tr) = (cash + settlements)%Q).
Proof.
  cbv zeta. rewrite get_total_balance_run. cbn [fst snd]. split.
  - unfold before_inventories. rewrite <- !app_assoc. reflexivity.
  - split.
    + intros H. rewrite H. reflexivity.
    + intros data H Hi. rewrite H, Hi. reflexivity.
Qed.








(** ** Day trading *)

(** X22.  When the account object carries an [s_mark], no request is sent
    and day trading is supported exactly when the mark is one of the
    strings B, Y, A, S, in upper case. *)
Theorem day_trade_support_read_off_the_mark answer target_account tr :
  Py.hasattr target_account "s_mark" = true ->
  exists supported,
    support_day_trade_condition answer target_account tr = (supported, tr)
    /\ (supported = true <->
        exists s, Py.getattr target_account "s_mark" (Py.Str "") = Py.Str s
                  /\ In s ["B"; "Y"; "A"; "S"]).
Proof.
  intros Hm. unfold support_day_trade_condition. rewrite Hm.
  eexists. split; [reflexivity|].
  unfold is_day_trade_mark.
  destruct (Py.getattr target_account "s_mark" (Py.Str "")) as [| | | |s| | | | | |];
    try (split; [discriminate | intros (s' & Hs & _); discriminate]).
  rewrite !orb_true_iff, !String.eqb_eq. split.
  - intros H. exists s. split; [reflexivity|]. simpl. intuition auto.
  - intros (s' & [= <-] & Hin). simpl in Hin. intuition auto.
Qed.

(** X23.  Without an [s_mark] the account information is asked for once,
    and day trading is reported as unsupported whenever that request
    raised, failed or brought no data. *)
Theorem day_trade_support_defaults_to_false answer target_account tr :
  Py.hasattr target_account "s_mark" = false ->
  exists supported,
    support_day_trade_condition answer target_account tr
    = (supported, tr ++ [Accounting.get_account_info])
    /\ (Accounting.success_with_data (answer tr Accounting.get_account_info) = None ->
        supported = false).
Proof.
  intros Hm. unfold support_day_trade_condition, Accounting.bind, ask. rewrite Hm.
  destruct (Accounting.success_with_data _); eexists;
    (split; [reflexivity|]); [discriminate | reflexivity].
Qed.

(** ** Which records are kept, and the side they are given *)

(** X24.  [_create_finlab_order] fails on a record exactly when one of its
    price, filled quantity and quantity is there, is not empty and does not
    convert to a number; a record that lacks any of them is normalized
    with 0 in its place. *)
Theorem create_finlab_order_fails_on_numbers_only env raw :
  _create_finlab_order env raw = None <->
  float env (Py.or_ (Py.getattr raw "price" (Py.Int 0)) (Py.Int 0)) = None
  \/ float env (Py.or_ (Py.getattr raw "filled_qty" (Py.Int 0)) (Py.Int 0)) = None
  \/ float env (Py.or_ (Py.getattr raw "after_qty" (Py.Int 0)) (Py.Int 0)) = None.
Proof.
  unfold _create_finlab_order.
  destruct (float env (Py.or_ (Py.getattr raw "price" (Py.Int 0)) (Py.Int 0))).
  - destruct (float env (Py.or_ (Py.getattr raw "filled_qty" (Py.Int 0)) (Py.Int 0))).
    + destruct (float env (Py.or_ (Py.getattr raw "after_qty" (Py.Int 0)) (Py.Int 0))).
      * split; [discriminate | intros [H|[H|H]]; discriminate].
      * split; auto.
    + split; auto.
  - split; auto.
Qed.

Lemma map_order_action_sell raw :
  _map_order_action raw = Some SELL <->
  Py.getattr raw "buy_sell" Py.None_ = Py.EBSAction Sell
  \/ exists s, Py.getattr raw "buy_sell" Py.None_ = Py.Str s
               /\ Py.upper s <> "B" /\ Py.upper s <> "BUY"
               /\ (Py.upper s = "S" \/ Py.upper s = "SELL").
Proof.
  unfold _map_order_action.
  destruct (Py.getattr raw "buy_sell" Py.None_) as [| | | |s| | |a| | |];
    try (split; [discriminate | intros [H|(s' & H & _)]; discriminate]).
  - destruct (String.eqb_spec (Py.upper s) "B") as [Hb|Hb];
      destruct (String.eqb_spec (Py.upper s) "BUY") as [Hy|Hy]; cbn [orb];
      try (split; [discriminate|];
           intros [H|(s' & [= <-] & H1 & H2 & _)]; [discriminate | congruence]).
    destruct (String.eqb_spec (Py.upper s) "S") as [Hs|Hs];
      destruct (String.eqb_spec (Py.upper s) "SELL") as [Hl|Hl]; cbn [orb];
      try (split; [intros _; right; exists s; auto | reflexivity]).
    split; [discriminate|].
    intros [H|(s' & [= <-] & _ & _ & [H|H])]; [discriminate | congruence | congruence].
  - destruct a.
    + split; [discriminate|].
      intros [H|(s' & H & _)]; discriminate.
    + split; [left; reflexivity | reflexivity].
Qed.

(** X25.  A normalized order is a sell order only when the record says so,
    by the SDK constant or by a string that reads S or SELL in any case;
    every other record, one with an unreadable side included, is
    normalized as a buy order. *)
Theorem side_defaults_to_buy env raw o :
  _create_finlab_order env raw = Some o ->
  (Order.action o = SELL <->
   Py.getattr raw "buy_sell" Py.None_ = Py.EBSAction Sell
   \/ exists s, Py.getattr raw "buy_sell" Py.None_ = Py.Str s
                /\ (Py.upper s = "S" \/ Py.upper s = "SELL")).
Proof.
  unfold _create_finlab_order. intros H.
  destruct (float env (Py.or_ (Py.getattr raw "price" (Py.Int 0)) (Py.Int 0)));
    [|discriminate].
  destruct (float env (Py.or_ (Py.getattr raw "filled_qty" (Py.Int 0)) (Py.Int 0)));
    [|discriminate].
  destruct (float env (Py.or_ (Py.getattr raw "after_qty" (Py.Int 0)) (Py.Int 0)));
    [|discriminate].
  injection H as <-. cbn [Order.action].
  pose proof (map_order_action_sell raw) as Hsell.
  destruct (_map_order_action raw) as [[|]|] eqn:Ha.
  - split; [discriminate|]. intros Hr.
    assert (Hx : Some BUY = Some SELL); [|discriminate Hx].
    apply Hsell. destruct Hr as [Hr|(s & Hs & Hu)]; [left; exact Hr|].
    right. exists s. split; [exact Hs|].
    split; [|split; [|exact Hu]]; intros Hb; destruct Hu as [Hu|Hu];
      rewrite Hb in Hu; discriminate.
  - split; [|reflexivity]. intros _.
    destruct (proj1 Hsell eq_refl) as [Hr|(s & Hs & _ & _ & Hu)];
      [left; exact Hr | right; exists s; auto].
  - split; [discriminate|]. intros Hr.
    assert (Hx : None = Some SELL); [|discriminate Hx].
    apply Hsell. destruct Hr as [Hr|(s & Hs & Hu)]; [left; exact Hr|].
    right. exists s. split; [exact Hs|].
    split; [|split; [|exact Hu]]; intros Hb; destruct Hu as [Hu|Hu];
      rewrite Hb in Hu; discriminate.
Qed.

(** X26.  A price change alone on an odd-lot order whose zeroing the venue
    accepted places no new order when nothing is left unfilled, and
    otherwise places one order: a plain limit order at the new price, for
    the same instrument and side, in the odd-lot family, and always as a
    cash order. *)
Theorem odd_lot_price_change_places_a_cash_limit_order env order_id p w order o f :
  fst (get_orders env w) !! order_id = Some order ->
  is_odd_market (Py.getattr (Order.org_order order) "market_type" (Py.Str ""))
    = true ->
  float env (Py.getattr (Order.org_order order) "after_qty"
               (Py.getattr (Order.org_order order) "quantity" (Py.Int 0))) = Some o ->
  float env (Py.getattr (Order.org_order order) "filled_qty" (Py.Int 0)) = Some f ->
  Sdk.success
    (respond env (trace (after_request env Sdk.get_order_results w))
       (Sdk.modify_quantity (Order.org_order order) 0)) <> None ->
  exists placed,
    requests (trace (snd (update_order env order_id (Some p) None w)))
    = requests (trace w)
      ++ [Sdk.get_order_results; Sdk.modify_quantity (Order.org_order order) 0]
      ++ placed
    /\ ((o - f <= 0)%Q -> placed = [])
    /\ ((0 < o - f)%Q ->
        exists new_order,
          placed = [Sdk.place_order new_order]
          /\ FBOrder.price new_order = Some p
          /\ FBOrder.price_type new_order = Limit
          /\ FBOrder.order_type new_order = Stock
          /\ FBOrder.symbol new_order = Order.stock_id order
          /\ FBOrder.buy_sell new_order
             = match Order.action order with BUY => Buy | SELL => Sell end
          /\ is_odd_market (Py.EMarket (FBOrder.market_type new_order)) = true).
Proof.
  intros Hin Hodd Ho Hf Hok.
  set (w1 := after_request env Sdk.get_order_results w) in *.
  assert (Hsnd : snd (update_order env order_id (Some p) None w)
                 = snd (update_price env order p w1)).
  { rewrite update_order_run, Hin. cbn zeta. fold w1. unfold price_step.
    destruct (update_price env order p w1) as [[|] w2]; reflexivity. }
  rewrite Hsnd. rewrite (update_price_odd_lot env order p w1 o f Hodd Ho Hf).
  cbv zeta. subst w1. rewrite after_request_requests, <- app_assoc.
  destruct (Sdk.success _) as [d|]; [clear Hok | contradiction].
  destruct (Py.ltb 0 (o - f)) eqn:Hpos.
  - eexists. split; [reflexivity|]. apply ltb_true in Hpos. split.
    + intros Hle. lra.
    + intros _. eexists. split; [reflexivity|].
      unfold build_order, resolve_price.
      cbn [FBOrder.price FBOrder.price_type FBOrder.order_type FBOrder.symbol
           FBOrder.buy_sell FBOrder.market_type order_type_of].
      repeat split. apply market_type_at_lot_kind.
  - eexists. split; [reflexivity|]. apply ltb_false in Hpos. split.
    + reflexivity.
    + intros Hlt. lra.
Qed.

(** ** The further properties at concrete inputs *)

Lemma get_orders_entries_witness :
  fst (get_orders (obliging_venue [whole_lot_record]) morning) !! "A0001"
    = Some whole_lot_order
  /\ Order.order_id whole_lot_order = Py.Str "A0001"
  /\ Py.getattr (Order.org_order whole_lot_order) "order_no" (Py.Str "")
     = Py.Str "A0001".
Proof.
  split; [reflexivity|].
  destruct (get_orders_entries (obliging_venue [whole_lot_record]) morning
              "A0001" whole_lot_order eq_refl) as (H1 & H2 & _).
  split; assumption.
Defined.

Lemma get_orders_skips_bad_record_witness :
  _create_finlab_order (obliging_venue [whole_lot_record; bad_record; odd_lot_record])
    bad_record = None
  /\ fst (get_orders (obliging_venue [whole_lot_record; bad_record; odd_lot_record])
            morning)
     = fold_left
         (add_order (obliging_venue [whole_lot_record; bad_record; odd_lot_record]))
         ([whole_lot_record] ++ [odd_lot_record]) ∅.
Proof.
  split; [reflexivity|].
  apply (get_orders_skips_bad_record
           (obliging_venue [whole_lot_record; bad_record; odd_lot_record]) morning
           [whole_lot_record] bad_record [odd_lot_record]); reflexivity.
Defined.

Lemma get_orders_last_record_wins_witness :
  _create_finlab_order
    (obliging_venue [whole_lot_record; amended_record; odd_lot_record])
    amended_record = Some amended_order
  /\ fst (get_orders
            (obliging_venue [whole_lot_record; amended_record; odd_lot_record])
            morning) !! "A0001" = Some amended_order.
Proof.
  split; [reflexivity|].
  apply (get_orders_last_record_wins
           (obliging_venue [whole_lot_record; amended_record; odd_lot_record])
           morning [whole_lot_record] amended_record [odd_lot_record]
           amended_order "A0001"); try reflexivity.
  intros r o' [<-|[]] _. discriminate.
Defined.

Lemma partially_filled_is_strictly_between_witness :
  _create_finlab_order (obliging_venue []) whole_lot_record = Some whole_lot_order
  /\ Order.status whole_lot_order = PARTIALLY_FILLED
  /\ (0 < Order.filled_quantity whole_lot_order)%Q
  /\ (Order.filled_quantity whole_lot_order < Order.quantity whole_lot_order)%Q.
Proof.
  split; [reflexivity|]. split; [reflexivity|].
  exact (partially_filled_is_strictly_between (obliging_venue [])
           whole_lot_record whole_lot_order eq_refl eq_refl).
Defined.

Lemma normalized_quantity_round_trip_witness :
  _create_finlab_order (obliging_venue []) whole_lot_record = Some whole_lot_order
  /\ Py.getattr whole_lot_record "after_qty" (Py.Int 0) = Py.Int 1000
  /\ native_qty false (Order.quantity whole_lot_order) = 1000%Z.
Proof.
  split; [reflexivity|]. split; [reflexivity|].
  apply (normalized_quantity_round_trip (obliging_venue [])
           whole_lot_record whole_lot_order 1000 eq_refl eq_refl).
  - split; [discriminate | reflexivity].
  - right. exists 1%Z. reflexivity.
Defined.

Lemma order_condition_round_trip_witness :
  Py.getattr amended_record "order_type" Py.None_
    = Py.EOrderType
        (FBOrder.order_type
           (build_order 36000 SELL (Py.Str "2330") 2 (Some 600%Q)
              false false false MARGIN_TRADING))
  /\ _map_order_condition amended_record = MARGIN_TRADING.
Proof.
  split; [reflexivity|].
  exact (order_condition_round_trip 36000 SELL (Py.Str "2330") 2 (Some 600%Q)
           false false false MARGIN_TRADING amended_record eq_refl).
Defined.

Lemma whole_lot_update_sends_two_modifications_witness :
  fst (get_orders (refusing_venue [whole_lot_record]) morning) !! "A0001"
    = Some whole_lot_order
  /\ requests (trace (snd (update_order (refusing_venue [whole_lot_record])
                             "A0001" (Some 601%Q) (Some (23 # 10)) morning)))
     = [Sdk.get_order_results;
        Sdk.modify_price whole_lot_record 601;
        Sdk.modify_quantity whole_lot_record 2600].
Proof.
  split; [reflexivity|].
  rewrite (whole_lot_update_sends_two_modifications
             (refusing_venue [whole_lot_record])
             "A0001" 601 (23 # 10) morning whole_lot_order 300
             eq_refl eq_refl eq_refl).
  vm_compute. reflexivity.
Defined.

Lemma odd_lot_update_stops_when_cancel_fails_witness :
  fst (get_orders (refusing_venue [odd_lot_record]) morning) !! "W0001"
    = Some odd_lot_order
  /\ requests (trace (snd (update_order (refusing_venue [odd_lot_record])
                             "W0001" (Some (65 # 2)) (Some 300%Q) morning)))
     = [Sdk.get_order_results; Sdk.modify_quantity odd_lot_record 0].
Proof.
  split; [reflexivity|].
  exact (odd_lot_update_stops_when_cancel_fails (refusing_venue [odd_lot_record])
           "W0001" (65 # 2) (Some 300%Q) morning odd_lot_order 500 0
           eq_refl eq_refl eq_refl eq_refl eq_refl).
Defined.

Lemma cancel_order_targets_the_record_witness :
  fst (get_orders (obliging_venue [amended_record]) morning) !! "A0001"
    = Some amended_order
  /\ requests (trace (snd (cancel_order (obliging_venue [amended_record])
                             "A0001" morning)))
     = [Sdk.get_order_results]
  /\ requests (trace (snd (cancel_order (obliging_venue [whole_lot_record])
                             "A0001" morning)))
     = [Sdk.get_order_results; Sdk.cancel_order whole_lot_record].
Proof.
  split; [reflexivity|]. split.
  - exact (proj2 (cancel_order_targets_the_record (obliging_venue [amended_record])
                    "A0001" morning amended_order eq_refl)).
  - exact (proj2 (cancel_order_targets_the_record (obliging_venue [whole_lot_record])
                    "A0001" morning whole_lot_order eq_refl)).
Defined.

Lemma positions_are_signed_witness :
  let e := {| Entry.stock_id := Py.Str "2330";
              Entry.quantity := (500 / 1000 * -1)%Q;
              Entry.order_condition := SHORT_SELLING |} in
  In e (fst (get_position (obliging_venue [inventory_record "2330" Short 1000 500])
               morning))
  /\ (Entry.quantity e < 0)%Q.
Proof.
  intros e.
  assert (Hin : In e (fst (get_position
                             (obliging_venue [inventory_record "2330" Short 1000 500])
                             morning)))
    by (left; reflexivity).
  split; [exact Hin|].
  destruct (positions_are_signed _ _ e Hin) as (_ & Hshort & _).
  apply Hshort. reflexivity.
Defined.

Lemma position_query_goes_at_once_witness :
  (10 <= clock morning - timestamp_for_get_position morning)%Q
  /\ trace (snd (get_position (obliging_venue []) morning))
     = [Request 36000 Sdk.inventories].
Proof.
  split; [discriminate|].
  apply (position_query_goes_at_once (obliging_venue []) morning). discriminate.
Defined.

Lemma odd_lot_price_change_places_a_cash_limit_order_witness :
  fst (get_orders (obliging_venue [odd_lot_record]) morning) !! "W0001"
    = Some odd_lot_order
  /\ exists new_order,
       requests (trace (snd (update_order (obliging_venue [odd_lot_record])
                               "W0001" (Some (65 # 2)) None morning)))
       = [Sdk.get_order_results; Sdk.modify_quantity odd_lot_record 0;
          Sdk.place_order new_order]
       /\ FBOrder.price new_order = Some (65 # 2)
       /\ FBOrder.order_type new_order = Stock.
Proof.
  split; [reflexivity|].
  destruct (odd_lot_price_change_places_a_cash_limit_order
              (obliging_venue [odd_lot_record]) "W0001" (65 # 2) morning
              odd_lot_order 500 0 eq_refl eq_refl eq_refl eq_refl)
    as (placed & Hreq & _ & Hnew); [discriminate|].
  destruct Hnew as (new_order & -> & Hp & _ & Ht & _); [reflexivity|].
  exists new_order. split; [exact Hreq|]. split; assumption.
Defined.

Lemma side_defaults_to_buy_witness :
  _create_finlab_order (obliging_venue []) amended_record = Some amended_order
  /\ Order.action amended_order = SELL
  /\ exists s, Py.getattr amended_record "buy_sell" Py.None_ = Py.Str s
               /\ (Py.upper s = "S" \/ Py.upper s = "SELL").
Proof.
  split; [reflexivity|]. split; [reflexivity|].
  destruct (proj1 (side_defaults_to_buy (obliging_venue []) amended_record
                     amended_order eq_refl) eq_refl) as [H|H];
    [discriminate H | exact H].
Defined.

Lemma get_cash_ignores_commas_witness :
  ledger [] Accounting.bank_remain
    = Sdk.returns (Some (Sdk.mk_result true
        (Py.Obj [("available_balance", Py.Str "1,234,567")])))
  /\ ledger_float (Accounting.remove_commas ("1" ++ "234,567")) = Some 1234567%Q
  /\ fst (get_cash ledger_float ledger []) = 1234567%Q.
Proof.
  split; [reflexivity|]. split; [reflexivity|].
  exact (get_cash_ignores_commas ledger_float ledger []
           (Py.Obj [("available_balance", Py.Str "1,234,567")])
           "1" "234,567" 1234567 eq_refl eq_refl eq_refl eq_refl).
Defined.

Lemma ledger_details_3d :
  details_of (ledger [] (Accounting.query_settlement "3d"))
    [detail_a; detail_undated; detail_b].
Proof.
  eexists. split; [reflexivity|]. split; [reflexivity|].
  split; [reflexivity | discriminate].
Defined.

Lemma ledger_details_0d :
  details_of (ledger ([] ++ [Accounting.query_settlement "3d"])
                (Accounting.query_settlement "0d")) [detail_a].
Proof.
  eexists. split; [reflexivity|]. split; [reflexivity|].
  split; [reflexivity | discriminate].
Defined.

Lemma get_settlement_sums_both_windows_witness :
  details_of (ledger [] (Accounting.query_settlement "3d"))
    [detail_a; detail_undated; detail_b]
  /\ details_of (ledger ([] ++ [Accounting.query_settlement "3d"])
                   (Accounting.query_settlement "0d")) [detail_a]
  /\ (fst (get_settlement ledger_float ledger [])
      == Qsum (map (counted_amount ledger_float)
                 ([detail_a; detail_undated; detail_b] ++ [detail_a])))%Q.
Proof.
  split; [exact ledger_details_3d|]. split; [exact ledger_details_0d|].
  exact (proj2 (get_settlement_sums_both_windows ledger_float ledger []
                  [detail_a; detail_undated; detail_b] [detail_a]
                  ledger_details_3d ledger_details_0d)).
Defined.

Lemma get_settlement_survives_a_lost_window_witness :
  Accounting.success_with_data (silent_ledger [] (Accounting.query_settlement "3d"))
    = None
  /\ fst (get_settlement ledger_float silent_ledger []) = 0%Q.
Proof.
  split; [reflexivity|].
  apply (get_settlement_survives_a_lost_window ledger_float silent_ledger []);
    reflexivity.
Defined.




Lemma day_trade_support_read_off_the_mark_witness :
  Py.hasattr marked_account "s_mark" = true
  /\ support_day_trade_condition ledger marked_account [] = (true, []).
Proof.
  split; [reflexivity|].
  destruct (day_trade_support_read_off_the_mark ledger marked_account [] eq_refl)
    as (supported & Hrun & Hiff).
  rewrite Hrun. f_equal. apply Hiff. exists "Y". split; [reflexivity|].
  right. left. reflexivity.
Defined.

Lemma day_trade_support_defaults_to_false_witness :
  Py.hasattr unmarked_account "s_mark" = false
  /\ support_day_trade_condition ledger unmarked_account []
     = (false, [Accounting.get_account_info]).
Proof.
  split; [reflexivity|].
  destruct (day_trade_support_defaults_to_false ledger unmarked_account [] eq_refl)
    as (supported & Hrun & Hfalse).
  rewrite Hrun. f_equal. apply Hfalse. reflexivity.
Defined.
